(** * SuperBenchmark: the averaging service of [main.py]

    A shallow embedding of [src/main.py]: the record type
    [BenchmarkingResult], the process-wide list [benchmarking_results],
    the seed loader [load_test_data], the two route handlers and
    [compute_average], followed by the properties the specification
    states about them.

    Conventions of the embedding
    - Python [int] is [Z] (unbounded).
    - [int / int] is Python's true division: the binary64 value nearest
      to the exact quotient, ties to even, or [OverflowError] when that
      value is beyond the binary64 range.  A [float] is kept as its sign,
      mantissa and exponent.
    - [datetime] values carry their calendar fields and an optional UTC
      offset, and are ordered as CPython's [datetime._cmp] orders them.
    - Exceptions are values of [exn]; module-level code and handlers run
      in the monad [M], which threads the global list and a ghost log of
      the accesses to the Record Store and of the calls to the
      Aggregator. *)

From Stdlib Require Import ZArith QArith Qabs Qpower List String Ascii Lia Lqa.
From stdpp Require Import base gmap strings list.

Local Open Scope Z_scope.

(** ** Exceptions and results *)

Inductive exn : Type :=
| HTTPException (status_code : Z) (detail : string)
| ValueError
| TypeError
| KeyError (key : string)
| AttributeError
| ZeroDivisionError
| OverflowError
| FileNotFoundError
| PermissionError
| JSONDecodeError
| ValidationError
| OtherException (class_name : string)
| Exception (message : string) (cause : exn).

Inductive result (A : Type) : Type :=
| Ok (a : A)
| Raise (e : exn).
Arguments Ok {A} a.
Arguments Raise {A} e.

Definition result_bind {A B} (r : result A) (k : A -> result B) : result B :=
  match r with
  | Ok a => k a
  | Raise e => Raise e
  end.

(** ** [datetime] *)

(** [utcoffset] is [None] for a naive value and [Some off] for an aware
    one, [off] being the offset east of UTC in microseconds. *)
Record datetime : Type := mk_datetime {
  year : Z;
  month : Z;
  day : Z;
  hour : Z;
  minute : Z;
  second : Z;
  microsecond : Z;
  utcoffset : option Z
}.

Definition _is_leap (y : Z) : bool :=
  (y mod 4 =? 0) && (negb (y mod 100 =? 0) || (y mod 400 =? 0)).

Definition _days_before_year (y : Z) : Z :=
  let y' := y - 1 in
  y' * 365 + y' / 4 - y' / 100 + y' / 400.

Definition _DAYS_BEFORE_MONTH : list Z :=
  [-1; 0; 31; 59; 90; 120; 151; 181; 212; 243; 273; 304; 334].

Definition _days_before_month (y m : Z) : Z :=
  nth (Z.to_nat m) _DAYS_BEFORE_MONTH 0
  + (if (2 <? m) && _is_leap y then 1 else 0).

Definition toordinal (d : datetime) : Z :=
  _days_before_year (year d) + _days_before_month (year d) (month d) + day d.

(** Comparison of two tuples of integers, as Python compares tuples. *)
Fixpoint tuple_cmp (xs ys : list Z) : comparison :=
  match xs, ys with
  | [], [] => Eq
  | [], _ :: _ => Lt
  | _ :: _, [] => Gt
  | x :: xs', y :: ys' =>
      match x ?= y with
      | Eq => tuple_cmp xs' ys'
      | c => c
      end
  end.

Definition fields (d : datetime) : list Z :=
  [year d; month d; day d; hour d; minute d; second d; microsecond d].

(** [self - other] for two aware values with different offsets, as the
    total number of microseconds of the resulting [timedelta]. *)
Definition datetime_sub (self other : datetime) (myoff otoff : Z) : Z :=
  let secs1 := second self + minute self * 60 + hour self * 3600 in
  let secs2 := second other + minute other * 60 + hour other * 3600 in
  ((toordinal self - toordinal other) * 86400 + (secs1 - secs2)) * 1000000
  + (microsecond self - microsecond other) + otoff - myoff.

(** [datetime._cmp]: equal offsets (both naive included) compare the
    fields; a naive and an aware value cannot be ordered; two aware values
    with different offsets compare the sign of their difference. *)
Definition _cmp (self other : datetime) : result comparison :=
  match utcoffset self, utcoffset other with
  | None, None => Ok (tuple_cmp (fields self) (fields other))
  | Some myoff, Some otoff =>
      if myoff =? otoff then Ok (tuple_cmp (fields self) (fields other))
      else Ok (datetime_sub self other myoff otoff ?= 0)
  | _, _ => Raise TypeError
  end.

(** [self <= other] *)
Definition datetime_le (self other : datetime) : result bool :=
  result_bind (_cmp self other) (fun c =>
  Ok (match c with Gt => false | _ => true end)).

(** ** [BenchmarkingResult] *)

Record BenchmarkingResult : Type := mk_BenchmarkingResult {
  request_id : string;
  prompt_text : string;
  generated_text : string;
  token_count : Z;
  time_to_first_token : Z;
  time_per_output_token : Z;
  total_generation_time : Z;
  timestamp : datetime
}.

(** ** [compute_average] *)

(** [sum(f(r) for r in results)]: the built-in [sum] adds from the left,
    starting at 0. *)
Definition sum {A} (f : A -> Z) (results : list A) : Z :=
  fold_left (fun acc r => acc + f r) results 0.

(** A finite binary64 value: [mantissa * 2 ^ exponent], negated when
    [sign] is set.  The values of the format have [mantissa < 2 ^ 53] and
    [-1074 <= exponent <= 971], with [exponent = -1074] when
    [mantissa < 2 ^ 52]; [-0.0] is the zero whose sign is set. *)
Record float : Type := mk_float {
  sign : bool;
  mantissa : Z;
  exponent : Z
}.

(** The integer nearest to [num / den], the even one of the two in a
    tie. *)
Definition round_half_even (num den : Z) : Z :=
  let m0 := num / den in
  let r := num mod den in
  if (den <? 2 * r) || ((2 * r =? den) && Z.odd m0) then m0 + 1 else m0.

(** [a / b] on two [int]s: [ZeroDivisionError] when [b] is 0; otherwise
    the quotient, in units of [2 ^ -1074], is rounded to an integer of at
    most 53 bits times a power of two, and [OverflowError] is raised when
    the rounded value reaches [2 ^ 1024]. *)
Definition truediv (a b : Z) : result float :=
  if b =? 0 then Raise ZeroDivisionError
  else
    let negate := xorb (a <? 0) (b <? 0) in
    let n := Z.abs a * 2 ^ 1074 in
    let d := Z.abs b in
    let s0 := Z.max (Z.log2 (n / d) - 52) 0 in
    let m1 := round_half_even n (d * 2 ^ s0) in
    let m := if m1 =? 2 ^ 53 then 2 ^ 52 else m1 in
    let s := if m1 =? 2 ^ 53 then s0 + 1 else s0 in
    if 2045 <? s then Raise OverflowError
    else Ok (mk_float negate m (s - 1074)).

Definition compute_average (results : list BenchmarkingResult)
  : result (gmap string float) :=
  let count := Z.of_nat (length results) in
  let total_token_count := sum token_count results in
  let total_time_to_first_token := sum time_to_first_token results in
  let total_time_per_output_token := sum time_per_output_token results in
  let total_generation_time := sum total_generation_time results in
  result_bind (truediv total_token_count count) (fun v1 =>
  result_bind (truediv total_time_to_first_token count) (fun v2 =>
  result_bind (truediv total_time_per_output_token count) (fun v3 =>
  result_bind (truediv total_generation_time count) (fun v4 =>
  Ok (<["average_token_count" := v1]>
      (<["average_time_to_first_token" := v2]>
      (<["average_time_per_output_token" := v3]>
      (<["average_total_generation_time" := v4]> ∅)))))))).

Arguments truediv : simpl never.
Arguments compute_average : simpl never.

(** ** Values read from the seed file *)

(** What [json.load] returns, plus the [datetime] the loader stores back
    into an item.  A [float] is kept as its literal. *)
#[warnings="-register-all"] Inductive pyval : Type :=
| PNone
| PBool (b : bool)
| PInt (z : Z)
| PFloat (literal : string)
| PStr (s : string)
| PList (l : list pyval)
| PDict (d : list (string * pyval))
| PDatetime (d : datetime).

(** The outcome of [open('test_database.json', 'r')] followed by
    [json.load(file)]: the file is missing, cannot be read or is not JSON,
    one of the two calls raises some other exception, or the document is
    parsed. *)
Inductive seed_file : Type :=
| Missing
| Unreadable
| Malformed
| OtherFailure (e : exn)
| Parsed (data : pyval).

Fixpoint assoc (key : string) (d : list (string * pyval)) : option pyval :=
  match d with
  | [] => None
  | (k, v) :: d' => if String.eqb k key then Some v else assoc key d'
  end.

(** [d[key] = v] on a [dict]: an existing key keeps its position. *)
Fixpoint dict_set (key : string) (v : pyval) (d : list (string * pyval))
  : list (string * pyval) :=
  match d with
  | [] => [(key, v)]
  | (k, v') :: d' =>
      if String.eqb k key then (k, v) :: d' else (k, v') :: dict_set key v d'
  end.

(** [data.get(key, default)] *)
Definition py_get (data : pyval) (key : string) (default : pyval)
  : result pyval :=
  match data with
  | PDict d => Ok (match assoc key d with Some v => v | None => default end)
  | _ => Raise AttributeError
  end.

Fixpoint chars (s : string) : list pyval :=
  match s with
  | EmptyString => []
  | String c s' => PStr (String c EmptyString) :: chars s'
  end.

(** The items a [for] loop draws from a value. *)
Definition py_iter (v : pyval) : result (list pyval) :=
  match v with
  | PList l => Ok l
  | PDict d => Ok (map (fun kv => PStr (fst kv)) d)
  | PStr s => Ok (chars s)
  | _ => Raise TypeError
  end.

(** [item[key]] for a string [key] *)
Definition py_getitem (item : pyval) (key : string) : result pyval :=
  match item with
  | PDict d =>
      match assoc key d with
      | Some v => Ok v
      | None => Raise (KeyError key)
      end
  | _ => Raise TypeError
  end.

(** ** The monad of module-level code and handlers *)

Inductive event : Type :=
| StoreRead
| StoreAppend
| AggregatorCall
| SeedLoaderCall.

(** The global [benchmarking_results] and the ghost log, most recent event
    first. *)
Record world : Type := mk_world {
  benchmarking_results : list BenchmarkingResult;
  log : list event
}.

Definition M (A : Type) : Type := world -> result A * world.

Definition ret {A} (a : A) : M A := fun w => (Ok a, w).
Definition raise {A} (e : exn) : M A := fun w => (Raise e, w).
Definition bind {A B} (c : M A) (k : A -> M B) : M B :=
  fun w =>
    match c w with
    | (Ok a, w') => k a w'
    | (Raise e, w') => (Raise e, w')
    end.
Definition lift {A} (r : result A) : M A := fun w => (r, w).

Notation "'let*' x := c 'in' k" := (bind c (fun x => k))
  (at level 10, x pattern, c at level 100, k at level 200).

(** [try: c  except ...: ...]: [h e] is the handler of the [except] clause
    that matches [e], if any; an exception no clause matches propagates.
    What [c] did to the world before raising stays done. *)
Definition try_except {A} (c : M A) (h : exn -> option (M A)) : M A :=
  fun w =>
    match c w with
    | (Ok a, w') => (Ok a, w')
    | (Raise e, w') =>
        match h e with
        | Some k => k w'
        | None => (Raise e, w')
        end
    end.

Definition emit (e : event) : M unit :=
  fun w => (Ok tt, mk_world (benchmarking_results w) (e :: log w)).

(** A read of the global [benchmarking_results]. *)
Definition read_store : M (list BenchmarkingResult) :=
  let* _ := emit StoreRead in
  fun w => (Ok (benchmarking_results w), w).

(** [benchmarking_results.append(r)] *)
Definition store_append (r : BenchmarkingResult) : M unit :=
  let* _ := emit StoreAppend in
  fun w => (Ok tt, mk_world (benchmarking_results w ++ [r]) (log w)).

(** A call of [compute_average]. *)
Definition call_compute_average (results : list BenchmarkingResult)
  : M (gmap string float) :=
  let* _ := emit AggregatorCall in
  lift (compute_average results).

(** [for x in xs: body x] *)
Fixpoint for_each {A} (xs : list A) (body : A -> M unit) : M unit :=
  match xs with
  | [] => ret tt
  | x :: xs' => let* _ := body x in for_each xs' body
  end.

(** ** HTTP requests and responses *)

(** A request, after path matching: the two routes of [main.py], or
    anything else. *)
Inductive request : Type :=
| GET_results_average
| GET_results_average_window (start_time end_time : string)
| Unrouted (method path : string).

Inductive content : Type :=
| JSONAverages (m : gmap string float)
| JSONDetail (detail : string)
| PlainText (text : string)
| OtherContent.

Record response : Type := mk_response {
  status : Z;
  body : content
}.

(** ** [str.lower] *)

(** Lowering of the ASCII letters.  Outside ASCII, [str.lower] yields
    none of the letters t, r, u, e, so the comparison with ['true'] below
    is not affected. *)
Definition ascii_lower (c : ascii) : ascii :=
  let n := nat_of_ascii c in
  if (Nat.leb 65 n && Nat.leb n 90)%bool then ascii_of_nat (n + 32) else c.

Fixpoint lower (s : string) : string :=
  match s with
  | EmptyString => EmptyString
  | String c s' => String (ascii_lower c) (lower s')
  end.

(** ** Instances of the library functions, for the examples *)

(** A parser for the format [YYYY-MM-DD?HH:MM:SS] with an optional offset
    [+HH:MM] or [-HH:MM] ([?] is any one character), which every version of
    [datetime.fromisoformat] accepts with this reading. *)
Definition digit (c : ascii) : option Z :=
  let n := Z.of_nat (nat_of_ascii c) in
  if (48 <=? n) && (n <=? 57) then Some (n - 48) else None.

Fixpoint read_digits (n : nat) (acc : Z) (s : string) : option (Z * string) :=
  match n, s with
  | O, _ => Some (acc, s)
  | S n', String c s' =>
      match digit c with
      | Some d => read_digits n' (acc * 10 + d) s'
      | None => None
      end
  | S _, EmptyString => None
  end.

Definition days_in_month (y m : Z) : Z :=
  if (m =? 2) && _is_leap y then 29
  else nth (Z.to_nat m) [0; 31; 28; 31; 30; 31; 30; 31; 31; 30; 31; 30; 31] 0.

Definition valid_fields (y mo d h mi se : Z) : bool :=
  (1 <=? y) && (1 <=? mo) && (mo <=? 12) && (1 <=? d)
  && (d <=? days_in_month y mo) && (h <? 24) && (mi <? 60) && (se <? 60).

Definition read_offset (s : string) : option (option Z) :=
  match s with
  | EmptyString => Some None
  | String sign s1 =>
      match read_digits 2 0 s1 with
      | Some (oh, String ":" s2) =>
          match read_digits 2 0 s2 with
          | Some (om, EmptyString) =>
              let off := (oh * 3600 + om * 60) * 1000000 in
              if (oh <? 24) && (om <? 60) then
                if Ascii.eqb sign "+" then Some (Some off)
                else if Ascii.eqb sign "-" then Some (Some (- off))
                else None
              else None
          | _ => None
          end
      | _ => None
      end
  end.

Definition fromisoformat_basic (s : string) : option datetime :=
  match read_digits 4 0 s with
  | Some (y, String "-" s1) =>
  match read_digits 2 0 s1 with
  | Some (mo, String "-" s2) =>
  match read_digits 2 0 s2 with
  | Some (d, String _ s3) =>
  match read_digits 2 0 s3 with
  | Some (h, String ":" s4) =>
  match read_digits 2 0 s4 with
  | Some (mi, String ":" s5) =>
  match read_digits 2 0 s5 with
  | Some (se, rest) =>
      if valid_fields y mo d h mi se then
        match read_offset rest with
        | Some off => Some (mk_datetime y mo d h mi se 0 off)
        | None => None
        end
      else None
  | None => None
  end
  | _ => None
  end
  | _ => None
  end
  | _ => None
  end
  | _ => None
  end
  | _ => None
  end.

(** A validator that accepts the keyword arguments when the eight fields
    are present with exactly the declared types, and converts nothing. *)
Definition strict_init (d : list (string * pyval)) : option BenchmarkingResult :=
  match assoc "request_id" d, assoc "prompt_text" d, assoc "generated_text" d,
        assoc "token_count" d, assoc "time_to_first_token" d,
        assoc "time_per_output_token" d, assoc "total_generation_time" d,
        assoc "timestamp" d with
  | Some (PStr a), Some (PStr b), Some (PStr c), Some (PInt n1), Some (PInt n2),
    Some (PInt n3), Some (PInt n4), Some (PDatetime t) =>
      Some (mk_BenchmarkingResult a b c n1 n2 n3 n4 t)
  | _, _, _, _, _, _, _, _ => None
  end.

Definition not_found (method path : string) : response :=
  mk_response 404 (JSONDetail "Not Found").

(** ** Reference definitions of the specification *)

(** The sum of a field over the records, by recursion on the list. *)
Fixpoint total (f : BenchmarkingResult -> Z) (rs : list BenchmarkingResult) : Z :=
  match rs with
  | [] => 0
  | r :: rs' => f r + total f rs'
  end.

(** The arithmetic mean of a field: its sum over the number of records. *)
Definition mean (f : BenchmarkingResult -> Z) (rs : list BenchmarkingResult) : Q :=
  (inject_Z (total f rs) / inject_Z (Z.of_nat (length rs)))%Q.

(** The number a [float] stands for. *)
Definition signed_mantissa (x : float) : Z :=
  if sign x then - mantissa x else mantissa x.

Definition float_value (x : float) : Q :=
  (inject_Z (signed_mantissa x) * 2 ^ exponent x)%Q.

(** The finite values of the binary64 format. *)
Definition is_binary64 (x : float) : Prop :=
  0 <= mantissa x < 2 ^ 53
  /\ -1074 <= exponent x <= 971
  /\ (mantissa x < 2 ^ 52 -> exponent x = -1074).

(** [x] is a binary64 value nearest to [q]: no value of the format is
    nearer. *)
Definition nearest_binary64 (q : Q) (x : float) : Prop :=
  is_binary64 x
  /\ forall y, is_binary64 y ->
       (Qabs (float_value x - q) <= Qabs (float_value y - q))%Q.

(** Halfway between the largest binary64 value and [2 ^ 1024]: a
    quotient of that magnitude or beyond does not round into the
    format. *)
Definition overflow_threshold : Z := (2 ^ 54 - 1) * 2 ^ 970.

(** [a / b] is within the range of the format. *)
Definition in_range (a b : Z) : Prop :=
  Z.abs a < overflow_threshold * Z.abs b.

(** What the windowed route answers from the records it has selected. *)
Definition window_response (selected : list BenchmarkingResult) : response :=
  match selected with
  | [] =>
      mk_response 404
        (JSONDetail "No benchmarking results found in the specified time window.")
  | _ :: _ =>
      match compute_average selected with
      | Ok m => mk_response 200 (JSONAverages m)
      | Raise _ => mk_response 500 (PlainText "Internal Server Error")
      end
  end.

(** What the application answers from the outcome of [compute_average]:
    200 with the mapping, or the plain 500 when it raises. *)
Definition average_response (rs : list BenchmarkingResult) : response :=
  match compute_average rs with
  | Ok m => mk_response 200 (JSONAverages m)
  | Raise _ => mk_response 500 (PlainText "Internal Server Error")
  end.

(** The keys of the mapping, each with the field it averages. *)
Definition average_fields : list (string * (BenchmarkingResult -> Z)) :=
  [("average_token_count", token_count);
   ("average_time_to_first_token", time_to_first_token);
   ("average_time_per_output_token", time_per_output_token);
   ("average_total_generation_time", total_generation_time)].

(** [xs <= ys] on two tuples of integers. *)
Definition tuple_le (xs ys : list Z) : bool :=
  match tuple_cmp xs ys with
  | Gt => false
  | _ => true
  end.

(** Whether a value is aware, that is, carries an offset. *)
Definition aware (d : datetime) : bool :=
  match utcoffset d with
  | Some _ => true
  | None => false
  end.

(** [t] is the least, respectively the greatest, timestamp of the records:
    it is the timestamp of one of them and [<=], respectively [>=], the
    timestamp of each. *)
Definition is_min_timestamp (t : datetime) (rs : list BenchmarkingResult) : Prop :=
  (exists r, In r rs /\ timestamp r = t)
  /\ forall r, In r rs -> datetime_le t (timestamp r) = Ok true.

Definition is_max_timestamp (t : datetime) (rs : list BenchmarkingResult) : Prop :=
  (exists r, In r rs /\ timestamp r = t)
  /\ forall r, In r rs -> datetime_le (timestamp r) t = Ok true.

(** Equality of two characters, and of two strings, up to the case of the
    ASCII letters. *)
Definition is_upper (c : ascii) : bool :=
  let n := nat_of_ascii c in (Nat.leb 65 n && Nat.leb n 90)%bool.

Definition is_lower (c : ascii) : bool :=
  let n := nat_of_ascii c in (Nat.leb 97 n && Nat.leb n 122)%bool.

Definition ascii_eq_ignore_case (a b : ascii) : bool :=
  Ascii.eqb a b
  || (is_upper a && is_lower b
      && Nat.eqb (nat_of_ascii a + 32) (nat_of_ascii b))%bool
  || (is_lower a && is_upper b
      && Nat.eqb (nat_of_ascii a) (nat_of_ascii b + 32))%bool.

Fixpoint eq_ignore_case (s1 s2 : string) : bool :=
  match s1, s2 with
  | EmptyString, EmptyString => true
  | String a s1', String b s2' =>
      ascii_eq_ignore_case a b && eq_ignore_case s1' s2'
  | _, _ => false
  end.

(** The value of the debug variable is the literal [true], up to case. *)
Definition truthy (env : option string) : bool :=
  match env with
  | Some v => eq_ignore_case v "true"
  | None => false
  end.

(** ** Sample data, for the examples *)

Definition jan (d : Z) (offset : option Z) : datetime :=
  mk_datetime 2024 1 d 0 0 0 0 offset.

Definition sample_result (tokens : Z) (t : datetime) : BenchmarkingResult :=
  mk_BenchmarkingResult "1" "prompt" "text" tokens 100 20 500 t.

(** Three records with token counts 10, 20 and 30, naive timestamps. *)
Definition sample_store : list BenchmarkingResult :=
  [sample_result 10 (jan 1 None); sample_result 20 (jan 2 None);
   sample_result 30 (jan 3 None)].

(** One record whose token count has 401 digits. *)
Definition huge_result : BenchmarkingResult :=
  sample_result (10 ^ 400) (jan 1 None).

(** Three records with token counts 1, 0 and 0: their mean is a third. *)
Definition third_store : list BenchmarkingResult :=
  [sample_result 1 (jan 1 None); sample_result 0 (jan 2 None);
   sample_result 0 (jan 3 None)].

(** One record with an aware timestamp, [2024-01-02T00:00:00+00:00]. *)
Definition aware_result : BenchmarkingResult :=
  sample_result 20 (jan 2 (Some 0)).

Definition sample_item (tokens : pyval) (ts : string) : pyval :=
  PDict [("request_id", PStr "1"); ("prompt_text", PStr "prompt");
         ("generated_text", PStr "text"); ("token_count", tokens);
         ("time_to_first_token", PInt 100); ("time_per_output_token", PInt 20);
         ("total_generation_time", PInt 500); ("timestamp", PStr ts)].

(** The content of a seed with two records, both well formed. *)
Definition good_seed_data : pyval :=
  PDict [("benchmarking_results",
          PList [sample_item (PInt 10) "2024-01-01T00:00:00";
                 sample_item (PInt 20) "2024-01-02T00:00:00"])].

(** A seed whose second record has a string where [token_count] is
    expected. *)
Definition bad_seed : seed_file :=
  Parsed (PDict [("benchmarking_results",
                  PList [sample_item (PInt 10) "2024-01-01T00:00:00";
                         sample_item (PStr "many") "2024-01-02T00:00:00"])]).

(** ** The program *)

Section Program.

(** [datetime.fromisoformat] on a [str]: [None] stands for the
    [ValueError] it raises on a string it does not accept. *)
Variable fromisoformat : string -> option datetime.

(** The constructor of [BenchmarkingResult] applied to the keyword
    arguments of an item: pydantic's validation, [None] standing for the
    [ValidationError] it raises when it rejects them. *)
Variable BenchmarkingResult_init
  : list (string * pyval) -> option BenchmarkingResult.

(** What the framework answers to a request that matches neither route of
    this module. *)
Variable other_routes : string -> string -> response.

Definition datetime_fromisoformat (v : pyval) : result datetime :=
  match v with
  | PStr s =>
      match fromisoformat s with
      | Some d => Ok d
      | None => Raise ValueError
      end
  | _ => Raise TypeError
  end.

Definition new_BenchmarkingResult (item : pyval) : result BenchmarkingResult :=
  match item with
  | PDict d =>
      match BenchmarkingResult_init d with
      | Some r => Ok r
      | None => Raise ValidationError
      end
  | _ => Raise TypeError
  end.

(** [item[key] = v] *)
Definition py_setitem (item : pyval) (key : string) (v : pyval) : pyval :=
  match item with
  | PDict d => PDict (dict_set key v d)
  | _ => item
  end.

(** What the body of the [for] loop of [load_test_data] computes before
    it appends: the parsed timestamp is stored back into the item, and the
    record is built from the item. *)
Definition item_record (item : pyval) : result BenchmarkingResult :=
  result_bind (py_getitem item "timestamp") (fun ts =>
  result_bind (datetime_fromisoformat ts) (fun dt =>
  new_BenchmarkingResult (py_setitem item "timestamp" (PDatetime dt)))).

Definition load_item (item : pyval) : M unit :=
  let* r := lift (item_record item) in
  store_append r.

(** The items the loop of [load_test_data] runs over. *)
Definition items_of (data : pyval) : result (list pyval) :=
  result_bind (py_get data "benchmarking_results" (PList [])) py_iter.

(** The seed file is missing, unreadable or malformed, or one of its
    records is rejected. *)
Definition seed_is_bad (file : seed_file) : Prop :=
  match file with
  | Missing | Unreadable | Malformed | OtherFailure _ => True
  | Parsed data =>
      exists items item e,
        items_of data = Ok items /\ In item items /\ item_record item = Raise e
  end.

Definition open_and_load (file : seed_file) : M pyval :=
  match file with
  | Missing => raise FileNotFoundError
  | Unreadable => raise PermissionError
  | Malformed => raise JSONDecodeError
  | OtherFailure e => raise e
  | Parsed data => ret data
  end.

Definition load_test_data (file : seed_file) : M unit :=
  let* _ := emit SeedLoaderCall in
  try_except
    (let* data := open_and_load file in
     let* items := lift (items_of data) in
     for_each items load_item)
    (fun e => Some (raise (Exception "Error loading test database: " e))).

(** [os.getenv('SUPERBENCHMARK_DEBUG', default)]; [env] is the value of the
    environment variable of that name, if it is set. *)
Definition getenv (env : option string) (default : string) : string :=
  match env with
  | Some v => v
  | None => default
  end.

Definition SUPERBENCHMARK_DEBUG (env : option string) : bool :=
  String.eqb (lower (getenv env "False")) "true".

(** *** Handlers *)

Definition get_average_results : M (gmap string float) :=
  let* results := read_store in
  match results with
  | [] => raise (HTTPException 404 "No benchmarking results found.")
  | _ :: _ =>
      let* results := read_store in
      call_compute_average results
  end.

(** [start_dt <= t <= end_dt]: the second comparison is made only when the
    first holds. *)
Definition in_window (start_dt end_dt t : datetime) : result bool :=
  result_bind (datetime_le start_dt t) (fun b =>
  if b then datetime_le t end_dt else Ok false).

(** The list comprehension of [get_average_results_in_window]. *)
Fixpoint filter_window (start_dt end_dt : datetime)
    (results : list BenchmarkingResult) : result (list BenchmarkingResult) :=
  match results with
  | [] => Ok []
  | r :: results' =>
      result_bind (in_window start_dt end_dt (timestamp r)) (fun b =>
      result_bind (filter_window start_dt end_dt results') (fun rest =>
      Ok (if b then r :: rest else rest)))
  end.

(** Whether [start_dt <= t <= end_dt] evaluates to [True]. *)
Definition in_window_holds (start_dt end_dt t : datetime) : bool :=
  match in_window start_dt end_dt t with
  | Ok true => true
  | _ => false
  end.

Definition get_average_results_in_window (start_time end_time : string)
  : M (gmap string float) :=
  let* (start_dt, end_dt) :=
    try_except
      (let* start_dt := lift (datetime_fromisoformat (PStr start_time)) in
       let* end_dt := lift (datetime_fromisoformat (PStr end_time)) in
       ret (start_dt, end_dt))
      (fun e =>
         match e with
         | ValueError | JSONDecodeError =>
             (* [except ValueError] also matches its subclasses *)
             Some (raise (HTTPException 400
                     "Invalid datetime format. Use ISO 8601 format."))
         | _ => None
         end) in
  let* results := read_store in
  let* filtered_results := lift (filter_window start_dt end_dt results) in
  match filtered_results with
  | [] =>
      raise (HTTPException 404
        "No benchmarking results found in the specified time window.")
  | _ :: _ => call_compute_average filtered_results
  end.

(** *** The application *)

Definition asgi_app : Type := request -> M response.
Definition middleware : Type := request -> asgi_app -> M response.

Definition not_ready_middleware : middleware :=
  fun request call_next =>
    raise (HTTPException 503
      "Feature not ready for live yet. Enable DEBUG mode.").

(** The router: a handler's return value becomes a 200 JSON response. *)
Definition router : asgi_app :=
  fun req =>
    match req with
    | GET_results_average =>
        let* m := get_average_results in
        ret (mk_response 200 (JSONAverages m))
    | GET_results_average_window start_time end_time =>
        let* m := get_average_results_in_window start_time end_time in
        ret (mk_response 200 (JSONAverages m))
    | Unrouted method path => ret (other_routes method path)
    end.

(** The framework turns an [HTTPException] raised below it into the
    response of that status. *)
Definition ExceptionMiddleware (app : asgi_app) : asgi_app :=
  fun req =>
    try_except (app req)
      (fun e =>
         match e with
         | HTTPException s d => Some (ret (mk_response s (JSONDetail d)))
         | _ => None
         end).

(** The outermost layer answers any exception that reaches it with a
    plain 500. *)
Definition ServerErrorMiddleware (app : asgi_app) : asgi_app :=
  fun req =>
    try_except (app req)
      (fun _ => Some (ret (mk_response 500 (PlainText "Internal Server Error")))).

(** [FastAPI.build_middleware_stack]: the middleware registered with
    [@app.middleware] sits between [ServerErrorMiddleware], outermost, and
    [ExceptionMiddleware], which wraps the router. *)
Definition build_middleware_stack (user_middleware : list middleware)
  : asgi_app :=
  ServerErrorMiddleware
    (fold_right (fun (mw : middleware) (app : asgi_app) =>
                   fun req => mw req app)
       (ExceptionMiddleware router) user_middleware).

(** What the stack without user middleware answers, from the outcome of
    the router: its response, the response of the status of an
    [HTTPException], or a 500 for any other exception. *)
Definition answer (r : result response) : response :=
  match r with
  | Ok resp => resp
  | Raise (HTTPException s d) => mk_response s (JSONDetail d)
  | Raise _ => mk_response 500 (PlainText "Internal Server Error")
  end.

(** The statements of the module, top to bottom; the value is the list of
    registered middleware. *)
Definition main (env : option string) (file : seed_file)
  : M (list middleware) :=
  if SUPERBENCHMARK_DEBUG env then
    let* _ := load_test_data file in
    ret []
  else
    ret [not_ready_middleware].

Definition initial_world : world := mk_world [] [].

(** Serving a sequence of requests, one after the other. *)
Fixpoint serve (app : asgi_app) (reqs : list request) (w : world)
  : list response * world :=
  match reqs with
  | [] => ([], w)
  | req :: reqs' =>
      match app req w with
      | (Ok resp, w') =>
          let '(resps, w'') := serve app reqs' w' in (resp :: resps, w'')
      | (Raise _, w') =>
          let '(resps, w'') := serve app reqs' w' in
          (mk_response 500 (PlainText "Internal Server Error") :: resps, w'')
      end
  end.

(** ** Properties *)

(** *** True division *)

Lemma round_half_even_spec (num den : Z) :
  0 < den ->
  num / den <= round_half_even num den <= num / den + 1
  /\ (2 * Z.abs (round_half_even num den * den - num) < den
      \/ 2 * Z.abs (round_half_even num den * den - num) = den
         /\ Z.even (round_half_even num den) = true).
Proof.
  intros Hden. unfold round_half_even.
  pose proof (Z.div_mod num den ltac:(lia)) as Hdm.
  pose proof (Z.mod_pos_bound num den Hden) as Hr.
  set (m0 := num / den) in *. set (r := num mod den) in *.
  destruct (den <? 2 * r) eqn:E1; simpl.
  - apply Z.ltb_lt in E1. split; [lia|]. left.
    replace ((m0 + 1) * den - num) with (den - r) by lia. lia.
  - apply Z.ltb_ge in E1.
    destruct (2 * r =? den) eqn:E2; simpl.
    + apply Z.eqb_eq in E2. destruct (Z.odd m0) eqn:E3.
      * split; [lia|]. right.
        replace ((m0 + 1) * den - num) with (den - r) by lia.
        split; [lia|]. now rewrite Z.add_1_r, Z.even_succ.
      * split; [lia|]. right.
        replace (m0 * den - num) with (- r) by lia.
        split; [lia|]. now rewrite <- Z.negb_odd, E3.
    + apply Z.eqb_neq in E2. split; [lia|]. left.
      replace (m0 * den - num) with (- r) by lia. lia.
Qed.

Lemma scale_bounds (n d : Z) :
  0 <= n -> 0 < d ->
  0 <= Z.max (Z.log2 (n / d) - 52) 0
  /\ n < d * 2 ^ Z.max (Z.log2 (n / d) - 52) 0 * 2 ^ 53
  /\ (0 < Z.max (Z.log2 (n / d) - 52) 0 ->
      d * 2 ^ Z.max (Z.log2 (n / d) - 52) 0 * 2 ^ 52 <= n).
Proof.
  intros Hn Hd.
  pose proof (Z.mul_div_le n d Hd) as Hlo.
  pose proof (Z.mul_succ_div_gt n d Hd) as Hhi.
  assert (Hq0 : 0 <= n / d) by (apply Z.div_pos; lia).
  set (q0 := n / d) in *.
  split; [lia|].
  destruct (Z.eq_dec q0 0) as [Hz|Hnz].
  - rewrite Hz in *. simpl Z.log2. rewrite Z.max_r by lia.
    split; [|lia]. change (2 ^ 0) with 1.
    assert (0 < 2 ^ 53) by (apply Z.pow_pos_nonneg; lia). nia.
  - assert (Hpos : 0 < q0) by lia.
    pose proof (Z.log2_spec q0 Hpos) as [Hl1 Hl2].
    pose proof (Z.log2_nonneg q0) as Hl0.
    set (l := Z.log2 q0) in *.
    destruct (Z.le_gt_cases l 52) as [Hle|Hgt].
    + rewrite Z.max_r by lia. split; [|lia]. change (2 ^ 0) with 1.
      assert (2 ^ Z.succ l <= 2 ^ 53) by (apply Z.pow_le_mono_r; lia).
      nia.
    + rewrite Z.max_l by lia. split.
      * replace (d * 2 ^ (l - 52) * 2 ^ 53) with (d * 2 ^ Z.succ l).
        -- nia.
        -- replace (Z.succ l) with ((l - 52) + 53) by lia.
           rewrite Z.pow_add_r by lia. ring.
      * intros _.
        replace (d * 2 ^ (l - 52) * 2 ^ 52) with (d * 2 ^ l).
        -- nia.
        -- replace l with ((l - 52) + 52) at 1 by lia.
           rewrite Z.pow_add_r by lia. ring.
Qed.

(** The integer nearest to [n / den] is at least as near as any other. *)
Lemma nearest_integer (n den m k : Z) :
  0 < den ->
  2 * Z.abs (m * den - n) <= den ->
  Z.abs (m * den - n) <= Z.abs (k * den - n).
Proof.
  intros Hden Hm.
  destruct (Z.eq_dec k m) as [->|Hne]; [lia|].
  assert (Hk : den <= (k - m) * den \/ (k - m) * den <= - den) by nia.
  lia.
Qed.

(** The parts of [truediv]. *)
Lemma truediv_parts (a b : Z) :
  b <> 0 ->
  exists m1 s0 m s,
    s0 = Z.max (Z.log2 (Z.abs a * 2 ^ 1074 / Z.abs b) - 52) 0
    /\ m1 = round_half_even (Z.abs a * 2 ^ 1074) (Z.abs b * 2 ^ s0)
    /\ (m1 = 2 ^ 53 /\ m = 2 ^ 52 /\ s = s0 + 1
        \/ m1 <> 2 ^ 53 /\ m = m1 /\ s = s0)
    /\ truediv a b
       = if 2045 <? s then Raise OverflowError
         else Ok (mk_float (xorb (a <? 0) (b <? 0)) m (s - 1074)).
Proof.
  intros Hb. unfold truediv.
  destruct (Z.eqb_spec b 0) as [|_]; [contradiction|].
  set (s0 := Z.max (Z.log2 (Z.abs a * 2 ^ 1074 / Z.abs b) - 52) 0).
  set (m1 := round_half_even (Z.abs a * 2 ^ 1074) (Z.abs b * 2 ^ s0)).
  destruct (Z.eqb_spec m1 (2 ^ 53)) as [E|E].
  - exists m1, s0, (2 ^ 52), (s0 + 1). repeat split; auto.
  - exists m1, s0, m1, s0. repeat split; auto.
Qed.

(** A multiple of a finer unit [E], with a factor below [2 * P], is no
    nearer to [n] than the integer multiple [m1] of [den = E * T] nearest
    to it, when [n / den] is at least [P]. *)
Lemma nearest_finer (n den E T m0 m1 k P : Z) :
  0 < E -> den = E * T -> 2 <= T -> 0 < P ->
  den * P <= n -> P <= m0 -> m0 <= m1 <= m0 + 1 -> m0 * den <= n ->
  2 * Z.abs (m1 * den - n) <= den ->
  k < 2 * P ->
  Z.abs (m1 * den - n) <= Z.abs (k * E - n).
Proof.
  intros HE Hden HT HP Hlow Hm0 Hm1 Hfl Hhalf Hk.
  assert (H2E : 2 * E <= den) by (rewrite Hden; nia).
  assert (HkE : k * E <= (2 * P - 1) * E) by nia.
  assert (HPE : 2 * P * E <= P * den) by nia.
  assert (Hm0den : P * den <= m0 * den) by nia.
  assert (Hcase : m1 = m0 \/ m1 = m0 + 1) by lia.
  destruct Hcase as [->| ->]; lia.
Qed.

(** The facts on which the properties of [truediv] rest. *)
Lemma truediv_facts (a b : Z) :
  b <> 0 ->
  exists m s,
    0 <= s
    /\ 0 <= m < 2 ^ 53
    /\ (m < 2 ^ 52 -> s = 0)
    /\ 2 * Z.abs (m * 2 ^ s * Z.abs b - Z.abs a * 2 ^ 1074) <= Z.abs b * 2 ^ s
    /\ (forall k sy, - 2 ^ 53 < k < 2 ^ 53 -> 0 <= sy ->
          Z.abs (m * 2 ^ s * Z.abs b - Z.abs a * 2 ^ 1074)
          <= Z.abs (k * 2 ^ sy * Z.abs b - Z.abs a * 2 ^ 1074))
    /\ truediv a b
       = if 2045 <? s then Raise OverflowError
         else Ok (mk_float (xorb (a <? 0) (b <? 0)) m (s - 1074)).
Proof.
  intros Hb.
  destruct (truediv_parts a b Hb) as (m1 & s0 & m & s & Hs0 & Hm1 & Hms & Htd).
  assert (Hn : 0 <= Z.abs a * 2 ^ 1074).
  { assert (0 < 2 ^ 1074) by (apply Z.pow_pos_nonneg; lia).
    apply Z.mul_nonneg_nonneg; lia. }
  assert (Hd : 0 < Z.abs b) by lia.
  remember (Z.abs a * 2 ^ 1074) as n eqn:En.
  remember (Z.abs b) as d eqn:Ed.
  clear En Ed.
  destruct (scale_bounds n d Hn Hd) as (Hs0nn & Hup & Hlow).
  rewrite <- Hs0 in Hs0nn, Hup, Hlow. clear Hs0.
  assert (Hp : 0 < 2 ^ s0) by (apply Z.pow_pos_nonneg; lia).
  assert (Hden : 0 < d * 2 ^ s0) by (apply Z.mul_pos_pos; lia).
  remember (d * 2 ^ s0) as den eqn:Eden.
  destruct (round_half_even_spec n den Hden) as (Hfl & Hnear).
  rewrite <- Hm1 in Hfl, Hnear. clear Hm1.
  assert (Hm0 : 0 <= n / den) by (apply Z.div_pos; lia).
  assert (Hm0' : n / den < 2 ^ 53) by (apply Z.div_lt_upper_bound; lia).
  assert (Hhalf : 2 * Z.abs (m1 * den - n) <= den) by lia.
  assert (H53 : 2 ^ 53 = 2 * 2 ^ 52) by reflexivity.
  assert (H52 : 0 < 2 ^ 52) by reflexivity.
  assert (Hval : m * 2 ^ s = m1 * 2 ^ s0).
  { destruct Hms as [(-> & -> & ->)|(_ & -> & ->)]; [|reflexivity].
    rewrite Z.pow_add_r by lia. rewrite H53. change (2 ^ 1) with 2. ring. }
  assert (Hscaled : m * 2 ^ s * d = m1 * den) by (rewrite Eden, Hval; ring).
  assert (Hps : 2 ^ s0 <= 2 ^ s)
    by (apply Z.pow_le_mono_r; destruct Hms as [(_ & _ & ->)|(_ & _ & ->)]; lia).
  assert (Hlow52 : 0 < s0 -> 2 ^ 52 <= n / den)
    by (intros Hpos; apply Z.div_le_lower_bound; [lia | now apply Hlow]).
  exists m, s. rewrite Hscaled.
  remember (2 ^ 52) as P52 eqn:EP52. remember (2 ^ 53) as P53 eqn:EP53.
  split; [destruct Hms as [(_ & _ & ->)|(_ & _ & ->)]; lia|].
  split; [destruct Hms as [(_ & -> & _)|(Hne & -> & _)]; lia|].
  split.
  { intros Hsmall. destruct Hms as [(_ & -> & _)|(_ & -> & ->)]; [lia|].
    destruct (Z.eq_dec s0 0) as [|Hs0pos]; [assumption|].
    assert (P52 <= n / den) by (apply Hlow52; lia). lia. }
  split.
  { assert (den <= d * 2 ^ s) by (rewrite Eden; apply Z.mul_le_mono_nonneg_l; lia).
    lia. }
  split; [|exact Htd].
  intros k sy Hk Hsy.
  assert (Hpy : 0 < 2 ^ sy) by (apply Z.pow_pos_nonneg; lia).
  destruct (Z.le_gt_cases s0 sy) as [Hge|Hlt].
  - replace (k * 2 ^ sy * d) with (k * 2 ^ (sy - s0) * den).
    + now apply nearest_integer.
    + rewrite Eden. replace sy with ((sy - s0) + s0) at 2 by lia.
      rewrite Z.pow_add_r by lia. ring.
  - replace (k * 2 ^ sy * d) with (k * (d * 2 ^ sy)) by ring.
    apply (nearest_finer n den (d * 2 ^ sy) (2 ^ (s0 - sy)) (n / den) m1 k P52).
    + apply Z.mul_pos_pos; lia.
    + rewrite Eden. replace s0 with (sy + (s0 - sy)) at 1 by lia.
      rewrite Z.pow_add_r by lia. ring.
    + change 2 with (2 ^ 1) at 1. apply Z.pow_le_mono_r; lia.
    + lia.
    + apply Hlow. lia.
    + apply Hlow52. lia.
    + exact Hfl.
    + rewrite Z.mul_comm. apply Z.mul_div_le. lia.
    + exact Hhalf.
    + lia.
Qed.

(** Whether the rounded quotient stays below [2 ^ 1024], from the parts of
    the division: [c] stands for [2 ^ 2044 * d]. *)
Lemma overflow_arith (n d den m1 s0 s c p : Z) :
  0 < d -> 0 < p -> 0 <= s0 ->
  den = d * 2 ^ s0 ->
  n < den * (2 * p) ->
  (0 < s0 -> den * p <= n) ->
  n / den <= m1 <= n / den + 1 ->
  (2 * Z.abs (m1 * den - n) < den
   \/ 2 * Z.abs (m1 * den - n) = den /\ Z.even m1 = true) ->
  (m1 = 2 * p /\ s = s0 + 1 \/ m1 <> 2 * p /\ s = s0) ->
  Z.even (2 * p - 1) = false ->
  (s0 <= 2044 -> den <= c) ->
  (s0 = 2045 -> den = 2 * c) ->
  (2045 <= s0 -> 2 * c <= den) ->
  (2046 <= s0 -> 4 * c <= den) ->
  (2045 < s <-> (4 * p - 1) * c <= n).
Proof.
  intros Hd Hp Hs0 Eden Hup Hlow Hfl Hnear Hms Hodd H2044 H2045 H2045' H2046.
  assert (Hden : 0 < den)
    by (rewrite Eden; apply Z.mul_pos_pos; [lia | apply Z.pow_pos_nonneg; lia]).
  assert (Hdiv : n / den * den <= n)
    by (rewrite Z.mul_comm; apply Z.mul_div_le; lia).
  destruct Hms as [(Hm1 & ->)|(Hm1 & ->)].
  - (* rounded up to the next power of two *)
    subst m1.
    assert (Hn : (4 * p - 1) * den <= 2 * n) by lia.
    split.
    + intros Hs. assert (H : 2 * c <= den) by (apply H2045'; lia). nia.
    + intros Hge. destruct (Z.le_gt_cases s0 2044) as [Hle|Hgt]; [|lia].
      exfalso. specialize (H2044 Hle). nia.
  - split.
    + intros Hs. assert (H : 4 * c <= den) by (apply H2046; lia).
      assert (Hl : den * p <= n) by (apply Hlow; lia). nia.
    + intros Hge. destruct (Z.le_gt_cases s0 2045) as [Hle|Hgt]; [|lia].
      exfalso.
      assert (Hm1' : m1 <= 2 * p - 1).
      { assert (n / den < 2 * p) by (apply Z.div_lt_upper_bound; lia). lia. }
      assert (Hm1den : m1 * den <= (2 * p - 1) * den) by nia.
      assert (Hc : 2 * den <= 4 * c).
      { destruct (Z.eq_dec s0 2045) as [E|E];
          [rewrite (H2045 E); lia | assert (den <= c) by (apply H2044; lia); lia]. }
      assert (Htie : 2 * n = (4 * p - 1) * den /\ m1 * den = (2 * p - 1) * den) by nia.
      destruct Htie as [Htie1 Htie2].
      apply Z.mul_cancel_r in Htie2; [|lia]. subst m1.
      destruct Hnear as [Hlt|[_ Heven]]; [lia | congruence].
Qed.

Lemma pow2_2044 (s0 : Z) :
  2 ^ 2044 = 2 ^ 970 * 2 ^ 1074
  /\ (s0 <= 2044 -> 2 ^ s0 <= 2 ^ 2044)
  /\ (s0 = 2045 -> 2 ^ s0 = 2 * 2 ^ 2044)
  /\ (2045 <= s0 -> 2 * 2 ^ 2044 <= 2 ^ s0)
  /\ (2046 <= s0 -> 4 * 2 ^ 2044 <= 2 ^ s0).
Proof.
  assert (E2045 : 2 ^ 2045 = 2 * 2 ^ 2044)
    by (change 2045 with (Z.succ 2044); apply Z.pow_succ_r; lia).
  assert (E2046 : 2 ^ 2046 = 2 * 2 ^ 2045)
    by (change 2046 with (Z.succ 2045); apply Z.pow_succ_r; lia).
  split.
  { change 2044 with (970 + 1074). apply Z.pow_add_r; lia. }
  split; [intros H; apply Z.pow_le_mono_r; lia|].
  split; [intros ->; exact E2045|].
  split.
  - intros H. rewrite <- E2045. apply Z.pow_le_mono_r; lia.
  - intros H. replace (4 * 2 ^ 2044) with (2 ^ 2046)
      by (rewrite E2046, E2045; ring).
    apply Z.pow_le_mono_r; lia.
Qed.

(** [truediv] raises [OverflowError] exactly when the quotient is out of
    range, and returns a [float] otherwise. *)
Lemma truediv_range (a b : Z) :
  b <> 0 ->
  (in_range a b -> exists x, truediv a b = Ok x)
  /\ (~ in_range a b -> truediv a b = Raise OverflowError).
Proof.
  intros Hb.
  destruct (truediv_parts a b Hb) as (m1 & s0 & m & s & Hs0 & Hm1 & Hms & Htd).
  assert (HP : 0 < 2 ^ 1074) by (apply Z.pow_pos_nonneg; lia).
  assert (Hn : 0 <= Z.abs a * 2 ^ 1074) by (apply Z.mul_nonneg_nonneg; lia).
  assert (Hd : 0 < Z.abs b) by lia.
  destruct (scale_bounds _ _ Hn Hd) as (Hs0nn & Hup & Hlow).
  rewrite <- Hs0 in Hs0nn, Hup, Hlow.
  assert (Hp0 : 0 < 2 ^ s0) by (apply Z.pow_pos_nonneg; lia).
  assert (Hden : 0 < Z.abs b * 2 ^ s0) by (apply Z.mul_pos_pos; lia).
  destruct (round_half_even_spec (Z.abs a * 2 ^ 1074) _ Hden) as (Hfl & Hnear).
  rewrite <- Hm1 in Hfl, Hnear.
  assert (H970 : 0 < 2 ^ 970) by (apply Z.pow_pos_nonneg; lia).
  destruct (pow2_2044 s0) as (E2044 & G1 & G2 & G3 & G4).
  assert (Hms' : m1 = 2 * 2 ^ 52 /\ s = s0 + 1 \/ m1 <> 2 * 2 ^ 52 /\ s = s0).
  { destruct Hms as [(E & _ & ->)|(E & _ & ->)];
      [left | right]; (split; [exact E | reflexivity]). }
  assert (Hrange : in_range a b <->
            ~ (4 * 2 ^ 52 - 1) * (2 ^ 2044 * Z.abs b) <= Z.abs a * 2 ^ 1074).
  { unfold in_range, overflow_threshold. rewrite E2044.
    change (4 * 2 ^ 52 - 1) with (2 ^ 54 - 1).
    remember (2 ^ 54 - 1) as t. remember (2 ^ 970) as p970.
    remember (2 ^ 1074) as p1074. clear - HP H970. nia. }
  clear E2044 Hs0 Hm1 Hms.
  remember (2 ^ 2044) as p2044 eqn:Ep. remember (2 ^ s0) as ps0 eqn:Eps0.
  remember (Z.abs a * 2 ^ 1074) as n eqn:En. remember (Z.abs b) as d eqn:Ed.
  clear Ep En Ed HP H970.
  assert (G1' : s0 <= 2044 -> d * ps0 <= p2044 * d)
    by (intros H; specialize (G1 H); nia).
  assert (G2' : s0 = 2045 -> d * ps0 = 2 * (p2044 * d))
    by (intros H; rewrite (G2 H); ring).
  assert (G3' : 2045 <= s0 -> 2 * (p2044 * d) <= d * ps0)
    by (intros H; specialize (G3 H); nia).
  assert (G4' : 2046 <= s0 -> 4 * (p2044 * d) <= d * ps0)
    by (intros H; specialize (G4 H); nia).
  rewrite Eps0 in G1', G2', G3', G4', Hup, Hlow, Hfl, Hnear.
  pose proof (overflow_arith n d (d * 2 ^ s0) m1 s0 s (p2044 * d) (2 ^ 52)
                Hd eq_refl Hs0nn eq_refl
                Hup Hlow Hfl Hnear Hms' eq_refl G1' G2' G3' G4') as Hiff.
  rewrite Htd. split.
  - intros Hin. destruct (Z.ltb_spec 2045 s) as [Hs|Hs]; [|eauto].
    exfalso. apply Hrange in Hin. apply Hin, Hiff, Hs.
  - intros Hout. destruct (Z.ltb_spec 2045 s) as [Hs|Hs]; [reflexivity|].
    exfalso. apply Hout, Hrange. intros Hc. apply Hiff in Hc. lia.
Qed.

(** The value of a [float] in units of [2 ^ -1074]. *)
Lemma float_value_scaled (x : float) :
  -1074 <= exponent x ->
  (float_value x
   == inject_Z (signed_mantissa x * 2 ^ (exponent x + 1074))
      / inject_Z (2 ^ 1074))%Q.
Proof.
  intros He. unfold float_value.
  replace (exponent x) with ((exponent x + 1074) - 1074) at 1 by lia.
  rewrite Qpower_minus by discriminate.
  rewrite inject_Z_mult.
  rewrite (Zpower_Qpower 2 (exponent x + 1074)) by lia.
  rewrite (Zpower_Qpower 2 1074) by lia.
  change (inject_Z 2) with 2%Q.
  generalize (2 ^ (exponent x + 1074))%Q (2 ^ 1074)%Q. intros u v.
  unfold Qdiv. ring.
Qed.

(** The distance between a multiple of [1 / p] and a quotient, over their
    common denominator. *)
Lemma Qabs_scaled_diff (s p a b : Z) :
  0 < p -> b <> 0 ->
  (Qabs (inject_Z s / inject_Z p - inject_Z a / inject_Z b)
   * inject_Z (p * Z.abs b)
   == inject_Z (Z.abs (s * b - a * p)))%Q.
Proof.
  intros Hp Hb.
  assert (Hp' : ~ (inject_Z p == 0)%Q)
    by (change 0%Q with (inject_Z 0); rewrite inject_Z_injective; lia).
  assert (Hb' : ~ (inject_Z b == 0)%Q)
    by (change 0%Q with (inject_Z 0); rewrite inject_Z_injective; lia).
  assert (Hpb : ~ (inject_Z (p * b) == 0)%Q)
    by (change 0%Q with (inject_Z 0); rewrite inject_Z_injective; nia).
  assert (E : (inject_Z s / inject_Z p - inject_Z a / inject_Z b
               == inject_Z (s * b - a * p) * / inject_Z (p * b))%Q).
  { unfold Z.sub. rewrite inject_Z_plus, inject_Z_opp, !inject_Z_mult.
    field. split; assumption. }
  rewrite E, Qabs_Qmult, Qabs_Qinv.
  change (Qabs (inject_Z (s * b - a * p)))
    with (inject_Z (Z.abs (s * b - a * p))).
  change (Qabs (inject_Z (p * b))) with (inject_Z (Z.abs (p * b))).
  rewrite Z.abs_mul, (Z.abs_eq p) by lia.
  field.
  change 0%Q with (inject_Z 0). rewrite inject_Z_injective. nia.
Qed.

(** Nearness in the rationals, from nearness over the common
    denominator. *)
Lemma Qabs_scaled_le (sx sy p a b : Z) :
  0 < p -> b <> 0 ->
  Z.abs (sx * b - a * p) <= Z.abs (sy * b - a * p) ->
  (Qabs (inject_Z sx / inject_Z p - inject_Z a / inject_Z b)
   <= Qabs (inject_Z sy / inject_Z p - inject_Z a / inject_Z b))%Q.
Proof.
  intros Hp Hb Hle.
  assert (Hc : (0 < inject_Z (p * Z.abs b))%Q)
    by (change 0%Q with (inject_Z 0); rewrite <- Zlt_Qlt; nia).
  apply (Qmult_le_r _ _ _ Hc).
  rewrite !Qabs_scaled_diff by assumption.
  now rewrite <- Zle_Qle.
Qed.

Lemma truediv_Ok_nonzero (a b : Z) (x : float) :
  truediv a b = Ok x -> b <> 0.
Proof.
  unfold truediv. destruct (Z.eqb_spec b 0); [discriminate | auto].
Qed.

(** What [truediv] returns is a value of the format. *)
Lemma truediv_binary64 (a b : Z) (x : float) :
  truediv a b = Ok x -> is_binary64 x.
Proof.
  intros Hx. pose proof (truediv_Ok_nonzero _ _ _ Hx) as Hb.
  destruct (truediv_facts a b Hb) as (m & s & Hs & Hm & Hsub & _ & _ & Htd).
  rewrite Htd in Hx. destruct (Z.ltb_spec 2045 s) as [|Hle]; [discriminate|].
  injection Hx as <-. unfold is_binary64. simpl.
  split; [exact Hm|]. split; [lia|]. intros Hsmall. specialize (Hsub Hsmall). lia.
Qed.

(** What [truediv] returns is a value of the format nearest to the
    quotient. *)
Lemma truediv_nearest (a b : Z) (x : float) :
  truediv a b = Ok x ->
  nearest_binary64 (inject_Z a / inject_Z b) x.
Proof.
  intros Hx. split; [exact (truediv_binary64 _ _ _ Hx)|].
  pose proof (truediv_Ok_nonzero _ _ _ Hx) as Hb.
  destruct (truediv_facts a b Hb) as (m & s & Hs & Hm & _ & _ & Hnear & Htd).
  rewrite Htd in Hx. destruct (Z.ltb_spec 2045 s) as [|Hle]; [discriminate|].
  injection Hx as <-.
  intros y (Hmy & Hey & _).
  assert (HP : 0 < 2 ^ 1074) by (apply Z.pow_pos_nonneg; lia).
  rewrite !float_value_scaled by (simpl; lia).
  apply Qabs_scaled_le; [exact HP | exact Hb |].
  unfold signed_mantissa. simpl sign. simpl mantissa. simpl exponent.
  replace (s - 1074 + 1074) with s by lia.
  set (k := if xorb (a <? 0) (b <? 0)
            then - signed_mantissa y else signed_mantissa y).
  assert (Hk : - 2 ^ 53 < k < 2 ^ 53)
    by (unfold k, signed_mantissa;
        destruct (xorb (a <? 0) (b <? 0)), (sign y); lia).
  specialize (Hnear k (exponent y + 1074) Hk ltac:(lia)).
  unfold k, signed_mantissa in Hnear. unfold signed_mantissa.
  remember (2 ^ 1074) as p eqn:Ep. remember (2 ^ s) as ps eqn:Eps.
  remember (2 ^ (exponent y + 1074)) as py eqn:Epy.
  remember (mantissa y) as my eqn:Emy.
  clear - Hnear.
  destruct (Z.ltb_spec a 0) as [Ha|Ha], (Z.ltb_spec b 0) as [Hb|Hb];
    [rewrite (Z.abs_neq a), (Z.abs_neq b) in Hnear by lia
    |rewrite (Z.abs_neq a), (Z.abs_eq b) in Hnear by lia
    |rewrite (Z.abs_eq a), (Z.abs_neq b) in Hnear by lia
    |rewrite (Z.abs_eq a), (Z.abs_eq b) in Hnear by lia];
    destruct (sign y); simpl xorb in *; cbv iota in *; lia.
Qed.

(** When the quotient is itself a value of the format, [truediv] returns
    it. *)
Lemma nearest_exact (q : Q) (x y : float) :
  nearest_binary64 q x -> is_binary64 y -> (float_value y == q)%Q ->
  (float_value x == q)%Q.
Proof.
  intros [_ Hnear] Hy Hq. specialize (Hnear y Hy).
  rewrite Hq in Hnear.
  assert (H0 : (Qabs (q - q) == 0)%Q)
    by (unfold Qminus; rewrite Qplus_opp_r; reflexivity).
  rewrite H0 in Hnear. apply Qabs_Qle_condition in Hnear. lra.
Qed.

(** The integers up to [2 ^ 53] in magnitude are values of the format. *)
Lemma integer_binary64 (z : Z) :
  Z.abs z <= 2 ^ 53 ->
  exists y, is_binary64 y /\ (float_value y == inject_Z z)%Q.
Proof.
  intros Hz.
  assert (HP : 0 < 2 ^ 1074) by (apply Z.pow_pos_nonneg; lia).
  assert (Hscaled : forall y, -1074 <= exponent y ->
            signed_mantissa y * 2 ^ (exponent y + 1074) = z * 2 ^ 1074 ->
            (float_value y == inject_Z z)%Q).
  { intros y He Hy. rewrite float_value_scaled by exact He.
    rewrite Hy, inject_Z_mult. field.
    change 0%Q with (inject_Z 0). rewrite inject_Z_injective. lia. }
  destruct (Z.eq_dec z 0) as [->|Hnz].
  { exists (mk_float false 0 (-1074)). split.
    - unfold is_binary64. cbn [mantissa exponent]. lia.
    - apply Hscaled; cbn [exponent]; [lia|].
      unfold signed_mantissa. cbn [sign mantissa]. lia. }
  assert (Hpos : 0 < Z.abs z) by lia.
  pose proof (Z.log2_spec _ Hpos) as [Hl1 Hl2].
  pose proof (Z.log2_nonneg (Z.abs z)) as Hl0.
  set (l := Z.log2 (Z.abs z)) in *.
  assert (Hl53 : l <= 53).
  { transitivity (Z.log2 (2 ^ 53));
      [apply Z.log2_le_mono; exact Hz | rewrite Z.log2_pow2; lia]. }
  destruct (Z.eq_dec l 53) as [E53|N53].
  - (* the magnitude is [2 ^ 53] *)
    rewrite E53 in Hl1. assert (Habs : Z.abs z = 2 ^ 53) by lia.
    exists (mk_float (z <? 0) (2 ^ 52) 1). split.
    + unfold is_binary64. cbn [mantissa exponent]. lia.
    + apply Hscaled; cbn [exponent]; [lia|].
      unfold signed_mantissa. cbn [sign mantissa].
      rewrite Z.pow_add_r by lia.
      change (2 ^ 1) with 2.
      assert (E : 2 ^ 52 * 2 = 2 ^ 53) by reflexivity.
      remember (2 ^ 1074) as p. remember (2 ^ 52) as p52. remember (2 ^ 53) as p53.
      destruct (Z.ltb_spec z 0); nia.
  - exists (mk_float (z <? 0) (Z.abs z * 2 ^ (52 - l)) (l - 52)).
    assert (Hp : 0 < 2 ^ (52 - l)) by (apply Z.pow_pos_nonneg; lia).
    assert (E52 : 2 ^ l * 2 ^ (52 - l) = 2 ^ 52)
      by (rewrite <- Z.pow_add_r by lia; f_equal; lia).
    assert (E53 : 2 ^ Z.succ l * 2 ^ (52 - l) = 2 ^ 53)
      by (rewrite <- Z.pow_add_r by lia; f_equal; lia).
    split.
    + unfold is_binary64. cbn [mantissa exponent].
      assert (2 ^ 52 <= Z.abs z * 2 ^ (52 - l) < 2 ^ 53).
      { rewrite <- E52, <- E53. split.
        - apply Z.mul_le_mono_nonneg_r; lia.
        - apply Z.mul_lt_mono_pos_r; lia. }
      lia.
    + apply Hscaled; cbn [exponent]; [lia|].
      unfold signed_mantissa. cbn [sign mantissa].
      replace (l - 52 + 1074) with ((1074 - (52 - l))) by lia.
      assert (E : 2 ^ (52 - l) * 2 ^ (1074 - (52 - l)) = 2 ^ 1074)
        by (rewrite <- Z.pow_add_r by lia; f_equal; lia).
      remember (2 ^ 1074) as p. remember (2 ^ (52 - l)) as u.
      remember (2 ^ (1074 - (52 - l))) as v.
      destruct (Z.ltb_spec z 0); nia.
Qed.

(** A value nearest to [q] is not below an integer of the format that
    [q] is not below, nor above one that [q] is not above. *)
Lemma nearest_between (q : Q) (x : float) (lo hi : Z) :
  nearest_binary64 q x ->
  Z.abs lo <= 2 ^ 53 -> Z.abs hi <= 2 ^ 53 ->
  (inject_Z lo <= q)%Q -> (q <= inject_Z hi)%Q ->
  (inject_Z lo <= float_value x)%Q /\ (float_value x <= inject_Z hi)%Q.
Proof.
  intros [_ Hnear] Hlo Hhi Hq1 Hq2.
  destruct (integer_binary64 lo Hlo) as (ylo & Hylo & Evlo).
  destruct (integer_binary64 hi Hhi) as (yhi & Hyhi & Evhi).
  pose proof (Hnear ylo Hylo) as H1. pose proof (Hnear yhi Hyhi) as H2.
  rewrite Evlo in H1. rewrite Evhi in H2.
  rewrite (Qabs_neg (inject_Z lo - q)) in H1 by lra.
  rewrite (Qabs_pos (inject_Z hi - q)) in H2 by lra.
  apply Qabs_Qle_condition in H1. apply Qabs_Qle_condition in H2.
  split; lra.
Qed.

(** *** The Aggregator *)

Lemma fold_sum_total (f : BenchmarkingResult -> Z) (rs : list BenchmarkingResult) (a : Z) :
  fold_left (fun acc r => acc + f r) rs a = a + total f rs.
Proof.
  revert a. induction rs as [|r rs IH]; intros a; simpl.
  - lia.
  - rewrite IH. lia.
Qed.

Lemma sum_total (f : BenchmarkingResult -> Z) (rs : list BenchmarkingResult) :
  sum f rs = total f rs.
Proof. unfold sum. rewrite fold_sum_total. lia. Qed.

Lemma count_nonzero (rs : list BenchmarkingResult) :
  rs <> [] -> Z.of_nat (length rs) <> 0.
Proof. destruct rs; [congruence | simpl length; lia]. Qed.

(** [truediv] raises nothing but its two errors. *)
Lemma truediv_raises (a b : Z) (e : exn) :
  truediv a b = Raise e -> e = ZeroDivisionError \/ e = OverflowError.
Proof.
  unfold truediv. destruct (b =? 0); [intros [= <-]; now left|].
  destruct (2045 <? _); [intros [= <-]; now right | discriminate].
Qed.

(** On the empty list the first division raises. *)
Lemma compute_average_empty : compute_average [] = Raise ZeroDivisionError.
Proof. reflexivity. Qed.

(** [compute_average] over the sums of the reference definition. *)
Lemma compute_average_total (rs : list BenchmarkingResult) :
  compute_average rs
  = let count := Z.of_nat (length rs) in
    result_bind (truediv (total token_count rs) count) (fun v1 =>
    result_bind (truediv (total time_to_first_token rs) count) (fun v2 =>
    result_bind (truediv (total time_per_output_token rs) count) (fun v3 =>
    result_bind (truediv (total total_generation_time rs) count) (fun v4 =>
    Ok (<["average_token_count" := v1]>
        (<["average_time_to_first_token" := v2]>
        (<["average_time_per_output_token" := v3]>
        (<["average_total_generation_time" := v4]> ∅)))))))).
Proof. unfold compute_average. now rewrite !sum_total. Qed.

Lemma compute_average_raises (rs : list BenchmarkingResult) (e : exn) :
  compute_average rs = Raise e -> e = ZeroDivisionError \/ e = OverflowError.
Proof.
  rewrite compute_average_total. cbv zeta. unfold result_bind.
  repeat match goal with
  | |- context [match truediv ?a ?b with _ => _ end] =>
      let E := fresh "E" in
      destruct (truediv a b) eqn:E;
        [|intros [= <-]; now apply truediv_raises in E]
  end.
  discriminate.
Qed.

(** When the four quotients are in range, the four divisions return, and
    the mapping holds their values under the four keys. *)
Lemma compute_average_in_range (rs : list BenchmarkingResult) :
  rs <> [] ->
  (forall k f, In (k, f) average_fields ->
     in_range (total f rs) (Z.of_nat (length rs))) ->
  exists m : gmap string float,
    compute_average rs = Ok m
    /\ dom m = ({[ "average_token_count"; "average_time_to_first_token";
                  "average_time_per_output_token";
                  "average_total_generation_time" ]} : gset string)
    /\ forall k f, In (k, f) average_fields ->
         exists v, m !! k = Some v
                   /\ truediv (total f rs) (Z.of_nat (length rs)) = Ok v.
Proof.
  intros Hne Hin. pose proof (count_nonzero rs Hne) as Hn.
  assert (Hdiv : forall k f, In (k, f) average_fields ->
            exists v, truediv (total f rs) (Z.of_nat (length rs)) = Ok v).
  { intros k f Hk. apply (truediv_range _ _ Hn), (Hin k f Hk). }
  destruct (Hdiv _ token_count ltac:(left; reflexivity)) as [v1 E1].
  destruct (Hdiv _ time_to_first_token ltac:(right; left; reflexivity))
    as [v2 E2].
  destruct (Hdiv _ time_per_output_token
              ltac:(right; right; left; reflexivity)) as [v3 E3].
  destruct (Hdiv _ total_generation_time
              ltac:(right; right; right; left; reflexivity)) as [v4 E4].
  rewrite compute_average_total. cbv zeta. rewrite E1, E2, E3, E4. simpl.
  eexists. split; [reflexivity|]. split.
  - rewrite !dom_insert_L, dom_empty_L. set_solver.
  - intros k f [H|[H|[H|[H|[]]]]]; injection H as <- <-;
      eexists; (split; [now simplify_map_eq | assumption]).
Qed.

Lemma truediv_nonzero (a b : Z) :
  b <> 0 ->
  (exists v, truediv a b = Ok v) \/ truediv a b = Raise OverflowError.
Proof.
  intros Hb. destruct (truediv a b) as [v|e] eqn:E; [left; now exists v|].
  right. destruct (truediv_raises _ _ _ E) as [->| ->]; [|reflexivity].
  exfalso. unfold truediv in E.
  destruct (Z.eqb_spec b 0); [contradiction|].
  destruct (2045 <? _); discriminate.
Qed.

(** When one of the four quotients is out of range, [compute_average]
    raises [OverflowError]. *)
Lemma compute_average_out_of_range (rs : list BenchmarkingResult) :
  rs <> [] ->
  (exists k f, In (k, f) average_fields
               /\ ~ in_range (total f rs) (Z.of_nat (length rs))) ->
  compute_average rs = Raise OverflowError.
Proof.
  intros Hne (k & f & Hk & Hout). pose proof (count_nonzero rs Hne) as Hn.
  assert (Hf : truediv (total f rs) (Z.of_nat (length rs)) = Raise OverflowError)
    by (apply (truediv_range _ _ Hn), Hout).
  rewrite compute_average_total. cbv zeta. unfold result_bind.
  destruct (truediv_nonzero (total token_count rs) _ Hn) as [[v1 E1]|E1];
    rewrite E1; [|reflexivity].
  destruct (truediv_nonzero (total time_to_first_token rs) _ Hn)
    as [[v2 E2]|E2]; rewrite E2; [|reflexivity].
  destruct (truediv_nonzero (total time_per_output_token rs) _ Hn)
    as [[v3 E3]|E3]; rewrite E3; [|reflexivity].
  destruct (truediv_nonzero (total total_generation_time rs) _ Hn)
    as [[v4 E4]|E4]; rewrite E4; [|reflexivity].
  exfalso. destruct Hk as [H|[H|[H|[H|[]]]]]; injection H as <- <-; congruence.
Qed.

(** What the application answers from an outcome of [compute_average]. *)
Lemma answer_average (rs : list BenchmarkingResult) :
  answer (match compute_average rs with
          | Ok m => Ok (mk_response 200 (JSONAverages m))
          | Raise e => Raise e
          end)
  = average_response rs.
Proof.
  unfold average_response.
  destruct (compute_average rs) as [m|e] eqn:E; [reflexivity|].
  now destruct (compute_average_raises _ _ E) as [->| ->].
Qed.

(** C1, as amended. For every non-empty list of records whose four
    quotients are within the range of binary64, [compute_average] returns
    a mapping with exactly the four keys [average_token_count],
    [average_time_to_first_token], [average_time_per_output_token] and
    [average_total_generation_time], and each value is a binary64 value
    nearest to the sum of the field over the records divided by their
    number. *)
Theorem compute_average_nearest_mean (results : list BenchmarkingResult) :
  results <> [] ->
  (forall k f, In (k, f) average_fields ->
     in_range (total f results) (Z.of_nat (length results))) ->
  exists m : gmap string float,
    compute_average results = Ok m
    /\ dom m = ({[ "average_token_count"; "average_time_to_first_token";
                  "average_time_per_output_token";
                  "average_total_generation_time" ]} : gset string)
    /\ forall k f, In (k, f) average_fields ->
         exists v, m !! k = Some v /\ nearest_binary64 (mean f results) v.
Proof.
  intros Hne Hin.
  destruct (compute_average_in_range results Hne Hin) as (m & Hm & Hdom & Hv).
  exists m. split; [exact Hm|]. split; [exact Hdom|].
  intros k f Hk. destruct (Hv k f Hk) as (v & Hlook & Hdiv).
  exists v. split; [exact Hlook|]. unfold mean. now apply truediv_nearest.
Qed.

(** *** The handlers *)

Ltac run_M :=
  unfold get_average_results, get_average_results_in_window,
    call_compute_average, read_store, store_append, emit, try_except,
    bind, ret, raise, lift; simpl.

Lemma get_average_results_empty (w : world) :
  benchmarking_results w = [] ->
  get_average_results w
  = (Raise (HTTPException 404 "No benchmarking results found."),
     mk_world (benchmarking_results w) (StoreRead :: log w)).
Proof. intros H. run_M. now rewrite H. Qed.

Lemma get_average_results_nonempty (w : world) :
  benchmarking_results w <> [] ->
  get_average_results w
  = (compute_average (benchmarking_results w),
     mk_world (benchmarking_results w)
       (AggregatorCall :: StoreRead :: StoreRead :: log w)).
Proof.
  intros H. run_M.
  destruct (benchmarking_results w) as [|r rs] eqn:E; [congruence|].
  reflexivity.
Qed.

Lemma window_unparsed (start_time end_time : string) (w : world) :
  fromisoformat start_time = None \/ fromisoformat end_time = None ->
  get_average_results_in_window start_time end_time w
  = (Raise (HTTPException 400 "Invalid datetime format. Use ISO 8601 format."),
     w).
Proof.
  intros H. run_M.
  destruct (fromisoformat start_time) as [sd|]; simpl; [|reflexivity].
  destruct H as [H|H]; [discriminate|]. now rewrite H.
Qed.

Lemma window_parsed (start_time end_time : string) (start_dt end_dt : datetime)
    (w : world) :
  fromisoformat start_time = Some start_dt ->
  fromisoformat end_time = Some end_dt ->
  get_average_results_in_window start_time end_time w
  = let w' := mk_world (benchmarking_results w) (StoreRead :: log w) in
    match filter_window start_dt end_dt (benchmarking_results w) with
    | Raise e => (Raise e, w')
    | Ok [] =>
        (Raise (HTTPException 404
           "No benchmarking results found in the specified time window."), w')
    | Ok (r :: rs) =>
        (compute_average (r :: rs),
         mk_world (benchmarking_results w)
           (AggregatorCall :: StoreRead :: log w))
    end.
Proof.
  intros Hs He. run_M. rewrite Hs. simpl. rewrite He. simpl.
  destruct (filter_window start_dt end_dt (benchmarking_results w))
    as [[|r rs]|e]; reflexivity.
Qed.

(** *** Ordering of [datetime] values and the window filter *)

Lemma tuple_cmp_refl (xs : list Z) : tuple_cmp xs xs = Eq.
Proof.
  induction xs as [|x xs IH]; simpl; [reflexivity|].
  now rewrite Z.compare_refl.
Qed.

Lemma datetime_le_refl (t : datetime) : datetime_le t t = Ok true.
Proof.
  unfold datetime_le, _cmp.
  destruct (utcoffset t) as [off|];
    rewrite ?Z.eqb_refl, tuple_cmp_refl; reflexivity.
Qed.

Lemma in_window_start (start_dt end_dt : datetime) :
  in_window start_dt end_dt start_dt = datetime_le start_dt end_dt.
Proof. unfold in_window. now rewrite datetime_le_refl. Qed.

Lemma in_window_end (start_dt end_dt : datetime) :
  datetime_le start_dt end_dt = Ok true ->
  in_window start_dt end_dt end_dt = Ok true.
Proof.
  intros H. unfold in_window. rewrite H. simpl. apply datetime_le_refl.
Qed.

Lemma datetime_le_defined (a b : datetime) :
  aware a = aware b -> exists v, datetime_le a b = Ok v.
Proof.
  unfold aware, datetime_le, _cmp.
  destruct (utcoffset a) as [x|], (utcoffset b) as [y|]; try discriminate;
    intros _; [destruct (x =? y)|]; simpl; eexists; reflexivity.
Qed.

Lemma datetime_le_mixed (a b : datetime) :
  aware a <> aware b -> datetime_le a b = Raise TypeError.
Proof.
  unfold aware, datetime_le, _cmp.
  destruct (utcoffset a), (utcoffset b); simpl; congruence.
Qed.

(** The test of the window has a value when the bounds and the timestamp
    are all naive or all aware. *)
Lemma in_window_defined (start_dt end_dt t : datetime) :
  aware start_dt = aware t -> aware t = aware end_dt ->
  exists b, in_window start_dt end_dt t = Ok b.
Proof.
  intros H1 H2. unfold in_window.
  destruct (datetime_le_defined start_dt t H1) as [v ->]. simpl.
  destruct v; [apply datetime_le_defined, H2 | now exists false].
Qed.

Lemma filter_window_defined (start_dt end_dt : datetime)
    (rs : list BenchmarkingResult) :
  (forall r, In r rs -> exists b, in_window start_dt end_dt (timestamp r) = Ok b) ->
  filter_window start_dt end_dt rs
  = Ok (List.filter (fun r => in_window_holds start_dt end_dt (timestamp r)) rs).
Proof.
  induction rs as [|r rs IH]; intros Hdef; simpl; [reflexivity|].
  destruct (Hdef r (or_introl eq_refl)) as [b Hb].
  rewrite IH by (intros r' Hr'; apply Hdef; now right).
  unfold in_window_holds. rewrite Hb. simpl. now destruct b.
Qed.

Lemma filter_all (start_dt end_dt : datetime) (rs : list BenchmarkingResult) :
  (forall r, In r rs -> in_window start_dt end_dt (timestamp r) = Ok true) ->
  filter_window start_dt end_dt rs = Ok rs.
Proof.
  induction rs as [|r rs IH]; intros Hall; simpl; [reflexivity|].
  rewrite (Hall r (or_introl eq_refl)). simpl.
  now rewrite IH by (intros r' Hr'; apply Hall; now right).
Qed.

Lemma filter_none (start_dt end_dt : datetime) (rs : list BenchmarkingResult) :
  (forall r, In r rs -> in_window start_dt end_dt (timestamp r) = Ok false) ->
  filter_window start_dt end_dt rs = Ok [].
Proof.
  induction rs as [|r rs IH]; intros Hnone; simpl; [reflexivity|].
  rewrite (Hnone r (or_introl eq_refl)). simpl.
  now rewrite IH by (intros r' Hr'; apply Hnone; now right).
Qed.
Lemma datetime_le_raises (a b : datetime) (e : exn) :
  datetime_le a b = Raise e -> e = TypeError.
Proof.
  unfold datetime_le, _cmp.
  destruct (utcoffset a) as [x|], (utcoffset b) as [y|]; simpl;
    try destruct (x =? y); simpl; congruence.
Qed.

Lemma in_window_raises (start_dt end_dt t : datetime) (e : exn) :
  in_window start_dt end_dt t = Raise e -> e = TypeError.
Proof.
  unfold in_window.
  destruct (datetime_le start_dt t) as [[|]|e0] eqn:E; simpl.
  - apply datetime_le_raises.
  - discriminate.
  - intros [= <-]. now apply datetime_le_raises in E.
Qed.

Lemma filter_window_raises (start_dt end_dt : datetime)
    (rs : list BenchmarkingResult) :
  (exists r, In r rs /\ in_window start_dt end_dt (timestamp r) = Raise TypeError) ->
  filter_window start_dt end_dt rs = Raise TypeError.
Proof.
  induction rs as [|r rs IH]; intros (r0 & Hin & Hr0); [destruct Hin|].
  simpl.
  destruct (in_window start_dt end_dt (timestamp r)) as [b|e] eqn:E; simpl.
  - destruct Hin as [->|Hin]; [congruence|].
    now rewrite IH by (now exists r0).
  - now rewrite (in_window_raises _ _ _ _ E).
Qed.

Lemma in_window_cases (start_dt end_dt : datetime)
    (rs : list BenchmarkingResult) :
  (forall r, In r rs -> exists b, in_window start_dt end_dt (timestamp r) = Ok b)
  \/ (exists r, In r rs
                /\ in_window start_dt end_dt (timestamp r) = Raise TypeError).
Proof.
  induction rs as [|r rs [IH|(r0 & Hin & Hr0)]].
  - left. intros r [].
  - destruct (in_window start_dt end_dt (timestamp r)) as [b|e] eqn:E.
    + left. intros r' [<-|Hr']; [now exists b | now apply IH].
    + right. exists r. split; [now left|].
      now rewrite E, (in_window_raises _ _ _ _ E).
  - right. exists r0. split; [now right | exact Hr0].
Qed.

(** *** The application *)

Lemma active_stack (req : request) (w : world) :
  build_middleware_stack [] req w
  = (Ok (answer (fst (router req w))), snd (router req w)).
Proof.
  unfold build_middleware_stack, ServerErrorMiddleware, ExceptionMiddleware,
    try_except, ret. simpl.
  destruct (router req w) as [[resp|e] w']; simpl; [reflexivity|].
  destruct e; reflexivity.
Qed.

(** The gate raises its 503 whatever the request, and never calls the
    rest of the stack. *)
Lemma not_ready_middleware_raises (req : request) (call_next : asgi_app)
    (w : world) :
  not_ready_middleware req call_next w
  = (Raise (HTTPException 503
              "Feature not ready for live yet. Enable DEBUG mode."), w).
Proof. reflexivity. Qed.

Lemma gated_stack (req : request) (w : world) :
  build_middleware_stack [not_ready_middleware] req w
  = (Ok (mk_response 500 (PlainText "Internal Server Error")), w).
Proof. reflexivity. Qed.

(** Active mode: in debug mode, a module that ends normally has registered
    no middleware. *)
Lemma debug_mode_stack (env : option string) (file : seed_file)
    (mws : list middleware) (w w' : world) :
  SUPERBENCHMARK_DEBUG env = true ->
  main env file w = (Ok mws, w') -> mws = [].
Proof.
  intros Hdebug. unfold main. rewrite Hdebug. unfold bind, ret.
  destruct (load_test_data file w) as [[[]|e] w1]; congruence.
Qed.

(** The answer of [GET /results/average] on a store that is not empty. *)
Lemma stack_average_nonempty (w : world) :
  benchmarking_results w <> [] ->
  build_middleware_stack [] GET_results_average w
  = (Ok (average_response (benchmarking_results w)),
     mk_world (benchmarking_results w)
       (AggregatorCall :: StoreRead :: StoreRead :: log w)).
Proof.
  intros Hne. rewrite active_stack. unfold router, bind, ret.
  rewrite (get_average_results_nonempty _ Hne).
  rewrite <- answer_average.
  now destruct (compute_average (benchmarking_results w)).
Qed.

(** The answer of the windowed route when its bounds are parsed. *)
Lemma stack_window (start_time end_time : string) (start_dt end_dt : datetime)
    (w : world) :
  fromisoformat start_time = Some start_dt ->
  fromisoformat end_time = Some end_dt ->
  fst (build_middleware_stack []
         (GET_results_average_window start_time end_time) w)
  = Ok (match filter_window start_dt end_dt (benchmarking_results w) with
        | Ok selected => window_response selected
        | Raise _ => mk_response 500 (PlainText "Internal Server Error")
        end).
Proof.
  intros Hs He. rewrite active_stack. unfold router, bind, ret.
  rewrite (window_parsed _ _ _ _ _ Hs He). cbv zeta.
  destruct (in_window_cases start_dt end_dt (benchmarking_results w))
    as [Hdef|Hraise].
  - rewrite filter_window_defined by assumption.
    destruct (List.filter _ (benchmarking_results w)) as [|r rs];
      [reflexivity|].
    unfold window_response.
    pose proof (answer_average (r :: rs)) as Ha. unfold average_response in Ha.
    rewrite <- Ha. now destruct (compute_average (r :: rs)).
  - now rewrite filter_window_raises.
Qed.

(** C5, as amended. In active mode, [GET /results/average] is answered
    with 404 exactly when the Record Store is empty; otherwise it is answered
    from the outcome of [compute_average] on the whole store: 200 with the
    mapping when it returns one, the plain 500 when it raises. *)
Theorem average_404_iff_store_empty (w : world) :
  exists resp w',
    build_middleware_stack [] GET_results_average w = (Ok resp, w')
    /\ (status resp = 404 <-> benchmarking_results w = [])
    /\ (benchmarking_results w = []
        /\ resp = mk_response 404 (JSONDetail "No benchmarking results found.")
        \/ benchmarking_results w <> []
        /\ resp = average_response (benchmarking_results w))
    /\ (forall m, compute_average (benchmarking_results w) = Ok m ->
                  resp = mk_response 200 (JSONAverages m)).
Proof.
  destruct (benchmarking_results w) as [|r rs] eqn:E.
  - rewrite active_stack. eexists _, _. split; [reflexivity|].
    unfold router, bind, ret.
    rewrite get_average_results_empty by assumption. simpl.
    split; [tauto|]. split; [left; tauto|].
    intros m Hm. rewrite compute_average_empty in Hm. discriminate.
  - assert (Hne : benchmarking_results w <> []) by (rewrite E; discriminate).
    rewrite (stack_average_nonempty w Hne). eexists _, _.
    split; [reflexivity|]. rewrite E. unfold average_response.
    split.
    { destruct (compute_average (r :: rs)); simpl; split; discriminate. }
    split; [right; split; [discriminate | reflexivity]|].
    intros m Hm. now rewrite Hm.
Qed.

(** C4. In active mode, when either path segment of the windowed route is
    not accepted by [fromisoformat], the answer is the 400 response naming
    the expected format, and the world is left as it was: the Record Store
    has not been read and [compute_average] has not been called. *)
Theorem window_unparsed_400 (start_time end_time : string) (w : world) :
  fromisoformat start_time = None \/ fromisoformat end_time = None ->
  build_middleware_stack []
    (GET_results_average_window start_time end_time) w
  = (Ok (mk_response 400
           (JSONDetail "Invalid datetime format. Use ISO 8601 format.")),
     w).
Proof.
  intros H. rewrite active_stack. unfold router, bind.
  now rewrite window_unparsed.
Qed.

(** C6, as amended. In active mode, for a window whose two bounds are
    parsed and such that the test [start_dt <= t <= end_dt] evaluates to
    [False] on the timestamp of every record, the windowed route answers
    the 404 of the window; the store has been read once and
    [compute_average] has not been called. *)
Theorem window_no_match_404 (start_time end_time : string)
    (start_dt end_dt : datetime) (w : world) :
  fromisoformat start_time = Some start_dt ->
  fromisoformat end_time = Some end_dt ->
  (forall r, In r (benchmarking_results w) ->
             in_window start_dt end_dt (timestamp r) = Ok false) ->
  build_middleware_stack []
    (GET_results_average_window start_time end_time) w
  = (Ok (mk_response 404
           (JSONDetail
              "No benchmarking results found in the specified time window.")),
     mk_world (benchmarking_results w) (StoreRead :: log w)).
Proof.
  intros Hs He Hnone. rewrite active_stack. unfold router, bind.
  rewrite (window_parsed _ _ _ _ _ Hs He). cbv zeta.
  now rewrite filter_none.
Qed.

(** C2, as amended. In active mode, for a window whose two bounds are
    parsed and such that the test [start_dt <= t <= end_dt] has a value on
    the timestamp of every record, the windowed route aggregates over
    exactly the records on which the test holds, in the order of the
    store: it answers 404 when there is none, and otherwise from the
    outcome of [compute_average] on them.  The test is made on the values
    as parsed and as stored, and both bounds are inclusive: when
    [start_dt <= end_dt], a record whose timestamp is [start_dt] or
    [end_dt] is selected. *)
Theorem window_selects_inclusive (start_time end_time : string)
    (start_dt end_dt : datetime) (w : world) :
  fromisoformat start_time = Some start_dt ->
  fromisoformat end_time = Some end_dt ->
  (forall r, In r (benchmarking_results w) ->
             exists b, in_window start_dt end_dt (timestamp r) = Ok b) ->
  let selected :=
    List.filter (fun r => in_window_holds start_dt end_dt (timestamp r))
      (benchmarking_results w) in
  fst (build_middleware_stack []
         (GET_results_average_window start_time end_time) w)
  = Ok (match selected with
        | [] =>
            mk_response 404
              (JSONDetail
                 "No benchmarking results found in the specified time window.")
        | _ :: _ => average_response selected
        end)
  /\ (forall r, In r selected <->
                In r (benchmarking_results w)
                /\ datetime_le start_dt (timestamp r) = Ok true
                /\ datetime_le (timestamp r) end_dt = Ok true)
  /\ (forall r, In r (benchmarking_results w) ->
                datetime_le start_dt end_dt = Ok true ->
                timestamp r = start_dt \/ timestamp r = end_dt ->
                In r selected).
Proof.
  intros Hs He Hdef selected.
  assert (Hsel : forall r, In r selected <->
                In r (benchmarking_results w)
                /\ datetime_le start_dt (timestamp r) = Ok true
                /\ datetime_le (timestamp r) end_dt = Ok true).
  { intros r. unfold selected. rewrite filter_In.
    unfold in_window_holds, in_window.
    destruct (datetime_le start_dt (timestamp r)) as [[|]|e]; simpl;
      [destruct (datetime_le (timestamp r) end_dt) as [[|]|e]| |];
      intuition congruence. }
  split; [|split; [exact Hsel|]].
  - rewrite (stack_window _ _ _ _ _ Hs He).
    rewrite filter_window_defined by assumption. fold selected.
    now destruct selected.
  - intros r Hin Hle [Ht|Ht]; apply Hsel; (split; [exact Hin|]); rewrite Ht.
    + split; [apply datetime_le_refl | exact Hle].
    + split; [exact Hle | apply datetime_le_refl].
Qed.

(** C7, as amended. For a non-empty Record Store that has a least and a
    greatest timestamp, the windowed route called with the least as start
    and the greatest as end answers what [GET /results/average] answers:
    the outcome of [compute_average] on the whole store. *)
Theorem window_min_max_is_average (start_time end_time : string)
    (start_dt end_dt : datetime) (w : world) :
  benchmarking_results w <> [] ->
  fromisoformat start_time = Some start_dt ->
  fromisoformat end_time = Some end_dt ->
  is_min_timestamp start_dt (benchmarking_results w) ->
  is_max_timestamp end_dt (benchmarking_results w) ->
  fst (build_middleware_stack []
         (GET_results_average_window start_time end_time) w)
  = fst (build_middleware_stack [] GET_results_average w)
  /\ fst (build_middleware_stack [] GET_results_average w)
     = Ok (average_response (benchmarking_results w)).
Proof.
  intros Hne Hs He [_ Hmin] [_ Hmax].
  rewrite (stack_window _ _ _ _ _ Hs He), (stack_average_nonempty _ Hne).
  rewrite filter_all.
  2:{ intros r Hr. unfold in_window. rewrite (Hmin r Hr). simpl.
      now apply Hmax. }
  split; [|reflexivity].
  cbn [fst]. unfold window_response, average_response.
  now destruct (benchmarking_results w).
Qed.

(** C3, as the code has it. When the debug flag is off, the module
    registers [not_ready_middleware], and every request, whatever its route
    and whatever the world, is answered with the plain 500 of the outermost
    layer, not with the 503 the middleware raises; the world is left as it
    was, so that neither the Record Store nor [compute_average] has been
    used. *)
Theorem gated_mode_answers_500 (env : option string) (file : seed_file)
    (req : request) (w : world) :
  SUPERBENCHMARK_DEBUG env = true
  \/ exists mws,
       main env file initial_world = (Ok mws, initial_world)
       /\ build_middleware_stack mws req w
          = (Ok (mk_response 500 (PlainText "Internal Server Error")), w).
Proof.
  unfold main. destruct (SUPERBENCHMARK_DEBUG env); [now left | right].
  exists [not_ready_middleware]. split; [reflexivity | apply gated_stack].
Qed.

(** *** Startup *)

Lemma ascii_lower_true (c : ascii) :
  Ascii.eqb (ascii_lower c) "t" = ascii_eq_ignore_case c "t"
  /\ Ascii.eqb (ascii_lower c) "r" = ascii_eq_ignore_case c "r"
  /\ Ascii.eqb (ascii_lower c) "u" = ascii_eq_ignore_case c "u"
  /\ Ascii.eqb (ascii_lower c) "e" = ascii_eq_ignore_case c "e".
Proof.
  destruct c as [[] [] [] [] [] [] [] []]; repeat split; reflexivity.
Qed.

Lemma lower_is_true (v : string) :
  String.eqb (lower v) "true" = eq_ignore_case v "true".
Proof.
  destruct v as [|a [|b [|c [|d [|e v]]]]];
    cbn [lower String.eqb eq_ignore_case]; try reflexivity.
  - now destruct (Ascii.eqb (ascii_lower a) "t"), (ascii_eq_ignore_case a "t").
  - destruct (ascii_lower_true a) as (-> & _).
    now destruct (ascii_eq_ignore_case a "t"),
      (Ascii.eqb (ascii_lower b) "r"), (ascii_eq_ignore_case b "r").
  - destruct (ascii_lower_true a) as (-> & _).
    destruct (ascii_lower_true b) as (_ & -> & _).
    now destruct (ascii_eq_ignore_case a "t"), (ascii_eq_ignore_case b "r"),
      (Ascii.eqb (ascii_lower c) "u"), (ascii_eq_ignore_case c "u").
  - destruct (ascii_lower_true a) as (-> & _).
    destruct (ascii_lower_true b) as (_ & -> & _).
    destruct (ascii_lower_true c) as (_ & _ & -> & _).
    destruct (ascii_lower_true d) as (_ & _ & _ & ->).
    reflexivity.
  - destruct (ascii_lower_true a) as (-> & _).
    destruct (ascii_lower_true b) as (_ & -> & _).
    destruct (ascii_lower_true c) as (_ & _ & -> & _).
    destruct (ascii_lower_true d) as (_ & _ & _ & ->).
    now destruct (ascii_eq_ignore_case a "t"), (ascii_eq_ignore_case b "r"),
      (ascii_eq_ignore_case c "u"), (ascii_eq_ignore_case d "e").
Qed.

Lemma debug_is_truthy (env : option string) :
  SUPERBENCHMARK_DEBUG env = truthy env.
Proof.
  unfold SUPERBENCHMARK_DEBUG, truthy, getenv.
  destruct env as [v|]; [apply lower_is_true | reflexivity].
Qed.

Lemma load_item_log (item : pyval) (w : world) (e : event) :
  In e (log w) -> In e (log (snd (load_item item w))).
Proof.
  intros H. unfold load_item, store_append, emit, bind, lift.
  destruct (item_record item); simpl; auto.
Qed.

Lemma for_each_log (items : list pyval) (w : world) (e : event) :
  In e (log w) -> In e (log (snd (for_each items load_item w))).
Proof.
  revert w. induction items as [|item items IH]; intros w H; simpl; [exact H|].
  unfold bind. pose proof (load_item_log item w e H) as H'.
  destruct (load_item item w) as [[[]|x] w']; simpl in *; auto.
Qed.

Lemma load_test_data_log (file : seed_file) (w : world) :
  In SeedLoaderCall (log (snd (load_test_data file w))).
Proof.
  unfold load_test_data, try_except, emit, bind, raise, lift, ret.
  set (w1 := mk_world (benchmarking_results w) (SeedLoaderCall :: log w)).
  assert (H1 : In SeedLoaderCall (log w1)) by (left; reflexivity).
  destruct file as [| | |x|data]; simpl; auto.
  destruct (items_of data) as [items|x]; simpl; auto.
  pose proof (for_each_log items w1 SeedLoaderCall H1) as H.
  destruct (for_each items load_item w1) as [[[]|x] w']; simpl in *; auto.
Qed.

Lemma serve_gated (reqs : list request) (w : world) :
  snd (serve (build_middleware_stack [not_ready_middleware]) reqs w) = w.
Proof.
  induction reqs as [|req reqs IH]; cbn [serve]; [reflexivity|].
  rewrite gated_stack.
  destruct (serve (build_middleware_stack [not_ready_middleware]) reqs w)
    as [resps w'] eqn:E.
  exact IH.
Qed.

(** C8. [load_test_data] is called exactly when the debug variable is set
    to the literal [true], up to case. For any other value, and when the
    variable is not set, the module registers the gate and leaves the Record
    Store empty, and the store is still empty after any sequence of
    requests. *)
Theorem seed_loader_runs_iff_debug (env : option string) (file : seed_file) :
  SUPERBENCHMARK_DEBUG env = truthy env
  /\ (In SeedLoaderCall (log (snd (main env file initial_world)))
      <-> truthy env = true)
  /\ (truthy env = true
      \/ main env file initial_world = (Ok [not_ready_middleware], initial_world)
         /\ forall reqs,
              benchmarking_results
                (snd (serve (build_middleware_stack [not_ready_middleware])
                        reqs initial_world)) = []).
Proof.
  split; [apply debug_is_truthy|].
  unfold main. rewrite debug_is_truthy.
  destruct (truthy env); split.
  - split; [reflexivity|]. intros _. unfold bind.
    pose proof (load_test_data_log file initial_world) as H.
    destruct (load_test_data file initial_world) as [[[]|x] w']; exact H.
  - now left.
  - simpl. split; [tauto | discriminate].
  - right. split; [reflexivity|]. intros reqs. now rewrite serve_gated.
Qed.

Lemma for_each_raises (items : list pyval) :
  (exists item e, In item items /\ item_record item = Raise e) ->
  forall w, exists e' w', for_each items load_item w = (Raise e', w').
Proof.
  induction items as [|a items IH]; intros (item & e & Hin & Hbad) w.
  - destruct Hin.
  - simpl. unfold bind at 1. unfold load_item, bind, lift, store_append, emit.
    destruct (item_record a) as [r|e0] eqn:Ea; simpl.
    + destruct Hin as [->|Hin]; [congruence|].
      apply IH. now exists item, e.
    + now exists e0, w.
Qed.

Lemma load_test_data_bad (file : seed_file) (w : world) :
  seed_is_bad file ->
  exists cause w',
    load_test_data file w
    = (Raise (Exception "Error loading test database: " cause), w').
Proof.
  intros Hbad.
  unfold load_test_data, try_except, emit, bind, raise, lift, ret.
  destruct file as [| | |x|data]; simpl; try (eexists _, _; reflexivity).
  destruct Hbad as (items & item & e & Hitems & Hin & Hrec).
  rewrite Hitems.
  destruct (for_each_raises items (ex_intro _ item (ex_intro _ e (conj Hin Hrec)))
              (mk_world (benchmarking_results w) (SeedLoaderCall :: log w)))
    as (e' & w' & ->).
  now exists e', w'.
Qed.

(** The ways in which a record is rejected. *)
Lemma item_record_rejects (d : list (string * pyval)) :
  (assoc "timestamp" d = None ->
   item_record (PDict d) = Raise (KeyError "timestamp"))
  /\ (forall s, assoc "timestamp" d = Some (PStr s) -> fromisoformat s = None ->
      item_record (PDict d) = Raise ValueError)
  /\ (forall s dt, assoc "timestamp" d = Some (PStr s) ->
      fromisoformat s = Some dt ->
      BenchmarkingResult_init (dict_set "timestamp" (PDatetime dt) d) = None ->
      item_record (PDict d) = Raise ValidationError).
Proof.
  unfold item_record, py_getitem, datetime_fromisoformat,
    new_BenchmarkingResult, py_setitem, result_bind.
  repeat split.
  - now intros ->.
  - now intros s -> ->.
  - now intros s dt -> -> ->.
Qed.

(** C9. In debug mode, when the seed file is missing, unreadable or
    malformed, or when any one of its records is rejected, the module
    raises the exception [Error loading test database: ...]: startup
    ends there, no list of middleware and so no application results, and
    nothing is served. *)
Theorem bad_seed_aborts_startup (env : option string) (file : seed_file) :
  SUPERBENCHMARK_DEBUG env = true ->
  seed_is_bad file ->
  exists cause w',
    load_test_data file initial_world
    = (Raise (Exception "Error loading test database: " cause), w')
    /\ main env file initial_world
       = (Raise (Exception "Error loading test database: " cause), w').
Proof.
  intros Hdebug Hbad. unfold main. rewrite Hdebug. unfold bind.
  destruct (load_test_data_bad file initial_world Hbad) as (cause & w' & ->).
  now exists cause, w'.
Qed.

(** C10. In debug mode, when the seed file holds a JSON object without
    the key [benchmarking_results], [load_test_data] raises nothing and
    appends nothing: the module ends in active mode with an empty Record
    Store, and [GET /results/average] is answered with 404. *)
Theorem missing_key_loads_nothing (env : option string)
    (d : list (string * pyval)) :
  SUPERBENCHMARK_DEBUG env = true ->
  assoc "benchmarking_results" d = None ->
  exists w,
    main env (Parsed (PDict d)) initial_world = (Ok [], w)
    /\ benchmarking_results w = []
    /\ fst (build_middleware_stack [] GET_results_average w)
       = Ok (mk_response 404 (JSONDetail "No benchmarking results found.")).
Proof.
  intros Hdebug Hkey. exists (mk_world [] [SeedLoaderCall]).
  unfold main. rewrite Hdebug.
  unfold load_test_data, items_of, py_get, try_except, emit, bind, raise,
    lift, ret. simpl. rewrite Hkey. simpl.
  repeat split.
Qed.

(** *** Further properties of the Aggregator *)

Lemma in_range_dec (a b : Z) : {in_range a b} + {~ in_range a b}.
Proof. unfold in_range. apply Z_lt_dec. Qed.

Lemma fields_in_range_cases (rs : list BenchmarkingResult) :
  (forall k f, In (k, f) average_fields ->
     in_range (total f rs) (Z.of_nat (length rs)))
  \/ (exists k f, In (k, f) average_fields
                  /\ ~ in_range (total f rs) (Z.of_nat (length rs))).
Proof.
  set (n := Z.of_nat (length rs)).
  destruct (in_range_dec (total token_count rs) n) as [H1|H1];
    [|right; eexists _, _; split; [left; reflexivity | exact H1]].
  destruct (in_range_dec (total time_to_first_token rs) n) as [H2|H2];
    [|right; eexists _, _; split; [right; left; reflexivity | exact H2]].
  destruct (in_range_dec (total time_per_output_token rs) n) as [H3|H3];
    [|right; eexists _, _; split; [do 2 right; left; reflexivity | exact H3]].
  destruct (in_range_dec (total total_generation_time rs) n) as [H4|H4];
    [|right; eexists _, _; split; [do 3 right; left; reflexivity | exact H4]].
  left. intros k f [H|[H|[H|[H|[]]]]]; injection H as <- <-; assumption.
Qed.

(** X1. [compute_average] raises [ZeroDivisionError] on the empty list and
    on no other list; it raises [OverflowError] exactly on the non-empty
    lists on which the quotient of one of the four sums by the length is
    beyond the range of binary64; on every other list it returns a mapping
    with exactly the four keys. *)
Theorem compute_average_outcomes (rs : list BenchmarkingResult) :
  (compute_average rs = Raise ZeroDivisionError <-> rs = [])
  /\ (compute_average rs = Raise OverflowError <->
      rs <> []
      /\ exists k f, In (k, f) average_fields
                     /\ ~ in_range (total f rs) (Z.of_nat (length rs)))
  /\ (rs = [] \/ compute_average rs = Raise OverflowError
      \/ exists m : gmap string float,
           compute_average rs = Ok m
           /\ dom m = ({[ "average_token_count"; "average_time_to_first_token";
                         "average_time_per_output_token";
                         "average_total_generation_time" ]} : gset string)).
Proof.
  destruct rs as [|r rs].
  - rewrite compute_average_empty.
    split; [tauto|]. split; [|now left].
    split; [discriminate | intros [H _]; congruence].
  - assert (Hne : r :: rs <> []) by discriminate.
    destruct (fields_in_range_cases (r :: rs)) as [Hin|Hout].
    + destruct (compute_average_in_range _ Hne Hin) as (m & Hm & Hdom & _).
      rewrite Hm. split; [split; discriminate|]. split.
      * split; [discriminate|].
        intros (_ & k & f & Hk & Hnot). destruct Hnot. now apply (Hin k).
      * right; right. now exists m.
    + rewrite (compute_average_out_of_range _ Hne Hout).
      split; [split; discriminate|]. split; [|right; now left].
      split; [now split | reflexivity].
Qed.

Lemma total_Permutation (f : BenchmarkingResult -> Z)
    (rs rs' : list BenchmarkingResult) :
  Permutation rs rs' -> total f rs = total f rs'.
Proof.
  induction 1; simpl; lia.
Qed.

(** X2. The averages do not depend on the order of the records. *)
Theorem compute_average_Permutation (rs rs' : list BenchmarkingResult) :
  Permutation rs rs' -> compute_average rs = compute_average rs'.
Proof.
  intros Hp. unfold compute_average.
  rewrite !sum_total.
  rewrite (Permutation_length Hp).
  now rewrite !(total_Permutation _ _ _ Hp).
Qed.

Lemma total_bounds (f : BenchmarkingResult -> Z) (rs : list BenchmarkingResult)
    (lo hi : Z) :
  (forall r, In r rs -> lo <= f r <= hi) ->
  lo * Z.of_nat (length rs) <= total f rs <= hi * Z.of_nat (length rs).
Proof.
  induction rs as [|r rs IH]; intros Hb.
  - simpl. lia.
  - assert (H1 : lo <= f r <= hi) by (apply Hb; now left).
    assert (H2 : lo * Z.of_nat (length rs) <= total f rs
                 <= hi * Z.of_nat (length rs))
      by (apply IH; intros r' Hr'; apply Hb; now right).
    cbn [total length]. lia.
Qed.

Lemma mean_bounds (f : BenchmarkingResult -> Z) (rs : list BenchmarkingResult)
    (lo hi : Z) :
  rs <> [] ->
  (forall r, In r rs -> lo <= f r <= hi) ->
  (inject_Z lo <= mean f rs)%Q /\ (mean f rs <= inject_Z hi)%Q.
Proof.
  intros Hne Hb.
  pose proof (total_bounds f rs lo hi Hb) as [Hlo Hhi].
  assert (Hn : 0 < Z.of_nat (length rs))
    by (destruct rs; [congruence | simpl length; lia]).
  assert (HnQ : (0 < inject_Z (Z.of_nat (length rs)))%Q)
    by (rewrite <- (Zlt_Qlt 0); exact Hn).
  unfold mean. split.
  - apply Qle_shift_div_l; [exact HnQ|].
    rewrite <- inject_Z_mult, <- Zle_Qle. exact Hlo.
  - apply Qle_shift_div_r; [exact HnQ|].
    rewrite <- inject_Z_mult, <- Zle_Qle. exact Hhi.
Qed.

Lemma bounded_in_range (f : BenchmarkingResult -> Z)
    (rs : list BenchmarkingResult) (lo hi : Z) :
  rs <> [] ->
  Z.abs lo <= 2 ^ 53 -> Z.abs hi <= 2 ^ 53 ->
  (forall r, In r rs -> lo <= f r <= hi) ->
  in_range (total f rs) (Z.of_nat (length rs)).
Proof.
  intros Hne Hlo Hhi Hb.
  pose proof (total_bounds f rs lo hi Hb) as [H1 H2].
  assert (Hn : 0 < Z.of_nat (length rs))
    by (destruct rs; [congruence | simpl length; lia]).
  unfold in_range, overflow_threshold.
  assert (Hp : 0 < 2 ^ 970) by (apply Z.pow_pos_nonneg; lia).
  assert (Hq : 2 ^ 54 = 2 * 2 ^ 53) by reflexivity.
  remember (2 ^ 970) as p. remember (2 ^ 53) as q. rewrite Hq.
  assert (Hq0 : 0 < q) by (subst q; apply Z.pow_pos_nonneg; lia).
  remember (Z.of_nat (length rs)) as n.
  rewrite (Z.abs_eq n) by lia.
  assert (Ht : Z.abs (total f rs) <= q * n) by nia.
  assert (Hbig : q * n < (2 * q - 1) * p * n) by nia.
  lia.
Qed.

(** X3. When each of the four fields of every record of a non-empty list
    is between two integers [lo] and [hi] of magnitude at most [2 ^ 53],
    [compute_average] returns a mapping, and each of its four values is
    between [lo] and [hi]. *)
Theorem average_within_range (rs : list BenchmarkingResult) (lo hi : Z) :
  rs <> [] ->
  Z.abs lo <= 2 ^ 53 -> Z.abs hi <= 2 ^ 53 ->
  (forall k f r, In (k, f) average_fields -> In r rs -> lo <= f r <= hi) ->
  exists m : gmap string float,
    compute_average rs = Ok m
    /\ forall k f, In (k, f) average_fields ->
         exists v, m !! k = Some v
                   /\ (inject_Z lo <= float_value v)%Q
                   /\ (float_value v <= inject_Z hi)%Q.
Proof.
  intros Hne Hlo Hhi Hb.
  assert (Hin : forall k f, In (k, f) average_fields ->
                  in_range (total f rs) (Z.of_nat (length rs))).
  { intros k f Hk. apply (bounded_in_range f rs lo hi); try assumption.
    intros r Hr. now apply (Hb k). }
  destruct (compute_average_in_range rs Hne Hin) as (m & Hm & _ & Hv).
  exists m. split; [exact Hm|].
  intros k f Hk. destruct (Hv k f Hk) as (v & Hlook & Hdiv).
  exists v. split; [exact Hlook|].
  assert (Hmean : (inject_Z lo <= mean f rs)%Q /\ (mean f rs <= inject_Z hi)%Q).
  { apply mean_bounds; [exact Hne|]. intros r Hr. now apply (Hb k). }
  destruct Hmean as [Hl Hh].
  apply (nearest_between (mean f rs)); try assumption.
  unfold mean. now apply truediv_nearest.
Qed.

(** *** Further properties of the handlers *)

Lemma router_store (req : request) (w : world) :
  benchmarking_results (snd (router req w)) = benchmarking_results w.
Proof.
  destruct req as [|start_time end_time|method path]; unfold router, bind, ret.
  - destruct (benchmarking_results w) as [|r rs] eqn:E.
    + now rewrite get_average_results_empty.
    + rewrite get_average_results_nonempty by (rewrite E; discriminate).
      rewrite E. now destruct (compute_average (r :: rs)).
  - destruct (fromisoformat start_time) as [start_dt|] eqn:Hs.
    + destruct (fromisoformat end_time) as [end_dt|] eqn:He.
      * rewrite (window_parsed _ _ _ _ _ Hs He). cbv zeta.
        destruct (filter_window start_dt end_dt (benchmarking_results w))
          as [[|r rs]|e]; try reflexivity.
        now destruct (compute_average (r :: rs)).
      * now rewrite window_unparsed by (now right).
    + now rewrite window_unparsed by (now left).
  - reflexivity.
Qed.

Lemma serve_store (app : asgi_app) :
  (forall req w, benchmarking_results (snd (app req w)) = benchmarking_results w) ->
  forall reqs w,
    benchmarking_results (snd (serve app reqs w)) = benchmarking_results w.
Proof.
  intros Happ reqs. induction reqs as [|req reqs IH]; intros w; cbn [serve].
  - reflexivity.
  - pose proof (Happ req w) as H.
    destruct (app req w) as [[resp|e] w1]; simpl in H;
      specialize (IH w1); destruct (serve app reqs w1) as [resps w2];
      simpl in *; congruence.
Qed.

(** X4. Serving requests never changes the Record Store: after any
    sequence of requests, in active mode as in gated mode, the store holds
    what it held at the start. *)
Theorem serve_never_writes_store (reqs : list request) (w : world) :
  benchmarking_results (snd (serve (build_middleware_stack []) reqs w))
  = benchmarking_results w
  /\ benchmarking_results
       (snd (serve (build_middleware_stack [not_ready_middleware]) reqs w))
     = benchmarking_results w.
Proof.
  split.
  - apply serve_store. intros req w0. rewrite active_stack. apply router_store.
  - now rewrite serve_gated.
Qed.

Lemma compute_average_nonempty_raises (rs : list BenchmarkingResult) (e : exn) :
  rs <> [] -> compute_average rs = Raise e -> e = OverflowError.
Proof.
  intros Hne He.
  destruct (fields_in_range_cases rs) as [Hin|Hout].
  - destruct (compute_average_in_range rs Hne Hin) as (m & Hm & _). congruence.
  - rewrite (compute_average_out_of_range rs Hne Hout) in He. congruence.
Qed.

(** X5. For a window whose bounds are parsed, the windowed route answers
    404, 200 or 500, and it answers 500 exactly when the comparison with
    the bounds raises [TypeError] on the timestamp of some record of the
    store, or [compute_average] raises [OverflowError] on the records
    within the window. *)
Theorem window_500_iff_raises (start_time end_time : string)
    (start_dt end_dt : datetime) (w : world) :
  fromisoformat start_time = Some start_dt ->
  fromisoformat end_time = Some end_dt ->
  exists resp,
    fst (build_middleware_stack []
           (GET_results_average_window start_time end_time) w) = Ok resp
    /\ (status resp = 404 \/ status resp = 200 \/ status resp = 500)
    /\ (status resp = 500 <->
        (exists r, In r (benchmarking_results w)
                   /\ in_window start_dt end_dt (timestamp r) = Raise TypeError)
        \/ compute_average
             (List.filter
                (fun r => in_window_holds start_dt end_dt (timestamp r))
                (benchmarking_results w))
           = Raise OverflowError).
Proof.
  intros Hs He. rewrite (stack_window _ _ _ _ _ Hs He).
  eexists. split; [reflexivity|].
  destruct (in_window_cases start_dt end_dt (benchmarking_results w))
    as [Hdef|Hraise].
  - rewrite filter_window_defined by assumption.
    assert (Hno : ~ exists r, In r (benchmarking_results w)
                    /\ in_window start_dt end_dt (timestamp r) = Raise TypeError).
    { intros (r & Hin & Hr). destruct (Hdef r Hin) as [b Hb]. congruence. }
    destruct (List.filter _ (benchmarking_results w)) as [|r rs].
    + rewrite compute_average_empty. simpl.
      split; [now left|].
      split; [discriminate | intros [H|H]; [tauto | discriminate]].
    + unfold window_response.
      destruct (compute_average (r :: rs)) as [m|e] eqn:Ec; simpl.
      * split; [right; now left|].
        split; [discriminate | intros [H|H]; [tauto | discriminate]].
      * split; [right; now right|].
        split; [|reflexivity].
        intros _. right. f_equal.
        now apply (compute_average_nonempty_raises (r :: rs)).
  - rewrite filter_window_raises by assumption. simpl.
    split; [right; now right | tauto].
Qed.

(** *** Further properties of the seed loader *)

Lemma load_item_accepts (item : pyval) (r : BenchmarkingResult) (w : world) :
  item_record item = Ok r ->
  load_item item w
  = (Ok tt, mk_world (benchmarking_results w ++ [r]) (StoreAppend :: log w)).
Proof.
  intros H. unfold load_item, bind, lift, store_append, emit. now rewrite H.
Qed.

Lemma load_item_rejects (item : pyval) (e : exn) (w : world) :
  item_record item = Raise e -> load_item item w = (Raise e, w).
Proof.
  intros H. unfold load_item, bind, lift. now rewrite H.
Qed.

Lemma for_each_accepts (items : list pyval) (rs : list BenchmarkingResult) :
  Forall2 (fun item r => item_record item = Ok r) items rs ->
  forall w, exists lg,
    for_each items load_item w
    = (Ok tt, mk_world (benchmarking_results w ++ rs) lg).
Proof.
  induction 1 as [|item r items rs Hr _ IH]; intros w.
  - exists (log w). simpl. rewrite app_nil_r. now destruct w.
  - cbn [for_each]. unfold bind at 1. rewrite (load_item_accepts _ _ _ Hr).
    destruct (IH (mk_world (benchmarking_results w ++ [r])
                    (StoreAppend :: log w))) as [lg ->].
    exists lg. simpl. now rewrite <- app_assoc.
Qed.

Lemma for_each_rejects (good rest : list pyval) (bad : pyval)
    (rs : list BenchmarkingResult) (e : exn) :
  Forall2 (fun item r => item_record item = Ok r) good rs ->
  item_record bad = Raise e ->
  forall w, exists lg,
    for_each (good ++ bad :: rest) load_item w
    = (Raise e, mk_world (benchmarking_results w ++ rs) lg).
Proof.
  intros Hgood Hbad. induction Hgood as [|item r items rs Hr _ IH]; intros w.
  - exists (log w). cbn [app for_each]. unfold bind at 1.
    rewrite (load_item_rejects _ _ _ Hbad).
    rewrite app_nil_r. now destruct w.
  - cbn [app for_each]. unfold bind at 1. rewrite (load_item_accepts _ _ _ Hr).
    destruct (IH (mk_world (benchmarking_results w ++ [r])
                    (StoreAppend :: log w))) as [lg ->].
    exists lg. simpl. now rewrite <- app_assoc.
Qed.

Lemma load_test_data_items (data : pyval) (items : list pyval) (w : world) :
  items_of data = Ok items ->
  load_test_data (Parsed data) w
  = match for_each items load_item
            (mk_world (benchmarking_results w) (SeedLoaderCall :: log w)) with
    | (Ok a, w') => (Ok a, w')
    | (Raise e, w') => (Raise (Exception "Error loading test database: " e), w')
    end.
Proof.
  intros Hitems.
  unfold load_test_data, try_except, emit, bind, raise, lift, ret,
    open_and_load. simpl. rewrite Hitems. reflexivity.
Qed.

(** X6. When every item of the seed is accepted, [load_test_data] ends
    normally and has appended the records to the store in the order of the
    file, after what the store held. *)
Theorem load_appends_in_file_order (data : pyval) (items : list pyval)
    (rs : list BenchmarkingResult) (w : world) :
  items_of data = Ok items ->
  Forall2 (fun item r => item_record item = Ok r) items rs ->
  exists lg,
    load_test_data (Parsed data) w
    = (Ok tt, mk_world (benchmarking_results w ++ rs) lg).
Proof.
  intros Hitems Hall. rewrite (load_test_data_items _ _ _ Hitems).
  destruct (for_each_accepts items rs Hall
              (mk_world (benchmarking_results w) (SeedLoaderCall :: log w)))
    as [lg ->].
  now exists lg.
Qed.

(** X7. When an item is rejected after a run of accepted ones,
    [load_test_data] raises with the exception of that first rejected item
    as the cause, the items after it are not looked at, and the records of
    the accepted run stay appended to the store: nothing is rolled back. *)
Theorem load_stops_at_first_rejected (data : pyval) (good rest : list pyval)
    (bad : pyval) (rs : list BenchmarkingResult) (e : exn) (w : world) :
  items_of data = Ok (good ++ bad :: rest) ->
  Forall2 (fun item r => item_record item = Ok r) good rs ->
  item_record bad = Raise e ->
  exists lg,
    load_test_data (Parsed data) w
    = (Raise (Exception "Error loading test database: " e),
       mk_world (benchmarking_results w ++ rs) lg).
Proof.
  intros Hitems Hgood Hbad. rewrite (load_test_data_items _ _ _ Hitems).
  destruct (for_each_rejects good rest bad rs e Hgood Hbad
              (mk_world (benchmarking_results w) (SeedLoaderCall :: log w)))
    as [lg ->].
  now exists lg.
Qed.

(** X8. From startup to the first answer: in debug mode, with a seed whose
    items are all accepted and are not none, the module ends with no
    middleware and with the records of the file as the store, and
    [GET /results/average] is answered from the outcome of
    [compute_average] on these records: 200 with the mapping when it
    returns one, the plain 500 when it raises. *)
Theorem startup_then_average (env : option string) (data : pyval)
    (items : list pyval) (rs : list BenchmarkingResult) :
  SUPERBENCHMARK_DEBUG env = true ->
  items_of data = Ok items ->
  Forall2 (fun item r => item_record item = Ok r) items rs ->
  rs <> [] ->
  exists w,
    main env (Parsed data) initial_world = (Ok [], w)
    /\ benchmarking_results w = rs
    /\ fst (build_middleware_stack [] GET_results_average w)
       = Ok (average_response rs).
Proof.
  intros Hdebug Hitems Hall Hne. unfold main. rewrite Hdebug. unfold bind.
  rewrite (load_test_data_items _ _ _ Hitems).
  destruct (for_each_accepts items rs Hall
              (mk_world (benchmarking_results initial_world)
                 (SeedLoaderCall :: log initial_world))) as [lg ->].
  simpl. exists (mk_world rs lg). split; [reflexivity|]. split; [reflexivity|].
  now rewrite stack_average_nonempty.
Qed.

(** X9. A seed whose top-level JSON value is not an object is refused: the
    call of [get] on it raises [AttributeError], which the loader reports,
    and nothing has been appended. *)
Theorem load_top_level_not_object (data : pyval) (w : world) :
  (forall d, data <> PDict d) ->
  load_test_data (Parsed data) w
  = (Raise (Exception "Error loading test database: " AttributeError),
     mk_world (benchmarking_results w) (SeedLoaderCall :: log w)).
Proof.
  intros Hnot.
  unfold load_test_data, try_except, emit, bind, raise, lift, ret,
    open_and_load, items_of, py_get. simpl.
  destruct data; try reflexivity. now destruct (Hnot d).
Qed.

Lemma item_record_causes (item : pyval) (e : exn) :
  item_record item = Raise e ->
  In e [TypeError; KeyError "timestamp"; ValueError; ValidationError].
Proof.
  unfold item_record, py_getitem, datetime_fromisoformat,
    new_BenchmarkingResult, py_setitem, result_bind.
  destruct item as [| | | | | |d|]; try (intros [= <-]; simpl; tauto).
  destruct (assoc "timestamp" d) as [ts|]; [|intros [= <-]; simpl; tauto].
  destruct ts as [| | | |s| | |]; try (intros [= <-]; simpl; tauto).
  destruct (fromisoformat s) as [dt|]; [|intros [= <-]; simpl; tauto].
  destruct (BenchmarkingResult_init _); [discriminate|].
  intros [= <-]; simpl; tauto.
Qed.

Lemma items_of_causes (data : pyval) (e : exn) :
  items_of data = Raise e -> In e [AttributeError; TypeError].
Proof.
  unfold items_of, py_get, py_iter, result_bind.
  destruct data as [| | | | | |d|]; try (intros [= <-]; simpl; tauto).
  destruct (assoc "benchmarking_results" d) as [[]|];
    try discriminate; intros [= <-]; simpl; tauto.
Qed.

Lemma for_each_causes (items : list pyval) (w : world) (e : exn) :
  fst (for_each items load_item w) = Raise e ->
  In e [TypeError; KeyError "timestamp"; ValueError; ValidationError].
Proof.
  revert w. induction items as [|item items IH]; intros w; [discriminate|].
  cbn [for_each]. unfold bind at 1.
  destruct (item_record item) as [r|e0] eqn:E.
  - rewrite (load_item_accepts _ _ _ E). apply IH.
  - rewrite (load_item_rejects _ _ _ E). simpl.
    intros [= <-]. now apply item_record_causes in E.
Qed.


(** X10. [load_test_data] ends normally or raises the one exception
    [Error loading test database: ...]: it raises nothing else. The cause
    it reports is the exception raised when the file is opened or decoded,
    whichever it is; for a document that was parsed, it is the
    [AttributeError] or [TypeError] of a seed of the wrong shape, or the
    [TypeError], [KeyError], [ValueError] or [ValidationError] of a rejected
    record. *)
Theorem load_test_data_outcomes (file : seed_file) (w : world) :
  fst (load_test_data file w) = Ok tt
  \/ exists cause,
       fst (load_test_data file w)
       = Raise (Exception "Error loading test database: " cause)
       /\ match file with
          | Missing => cause = FileNotFoundError
          | Unreadable => cause = PermissionError
          | Malformed => cause = JSONDecodeError
          | OtherFailure e => cause = e
          | Parsed _ =>
              In cause [AttributeError; TypeError; KeyError "timestamp";
                        ValueError; ValidationError]
          end.
Proof.
  destruct file as [| | |x|data].
  - right. now exists FileNotFoundError.
  - right. now exists PermissionError.
  - right. now exists JSONDecodeError.
  - right. now exists x.
  - destruct (items_of data) as [items|e] eqn:Hitems.
    + rewrite (load_test_data_items _ _ _ Hitems).
      pose proof (for_each_causes items
        (mk_world (benchmarking_results w) (SeedLoaderCall :: log w))) as Hc.
      destruct (for_each items load_item _) as [[[]|e] w']; simpl in *.
      * now left.
      * right. exists e. split; [reflexivity|].
        specialize (Hc e eq_refl). simpl in Hc. tauto.
    + right. exists e. split.
      * unfold load_test_data, try_except, emit, bind, raise, lift, ret,
          open_and_load. simpl. now rewrite Hitems.
      * apply items_of_causes in Hitems. simpl in *. tauto.
Qed.

(** *** Further properties of the window *)

Lemma tuple_cmp_Eq (xs ys : list Z) : tuple_cmp xs ys = Eq -> xs = ys.
Proof.
  revert ys. induction xs as [|x xs IH]; intros [|y ys]; simpl;
    try discriminate; [reflexivity|].
  destruct (Z.compare_spec x y) as [Hxy|Hxy|Hxy]; try discriminate.
  intros Hrest. subst. f_equal. now apply IH.
Qed.

Lemma tuple_le_trans (xs ys zs : list Z) :
  tuple_le xs ys = true -> tuple_le ys zs = true -> tuple_le xs zs = true.
Proof.
  unfold tuple_le. revert ys zs.
  induction xs as [|x xs IH]; intros [|y ys] [|z zs]; simpl;
    try congruence.
  destruct (Z.compare_spec x y), (Z.compare_spec y z), (Z.compare_spec x z);
    try congruence; try (exfalso; lia).
  apply IH.
Qed.

Lemma tuple_le_antisym (xs ys : list Z) :
  tuple_le xs ys = true -> tuple_le ys xs = true -> xs = ys.
Proof.
  unfold tuple_le. revert ys.
  induction xs as [|x xs IH]; intros [|y ys]; simpl; try congruence.
  destruct (Z.compare_spec x y) as [Hxy|Hxy|Hxy],
    (Z.compare_spec y x) as [Hyx|Hyx|Hyx];
    try congruence; try (exfalso; lia).
  intros Hle Hge. subst. f_equal. now apply IH.
Qed.

(** Two values with the same offset, both naive included, are ordered by
    their fields. *)
Lemma datetime_le_same_offset (a b : datetime) :
  utcoffset a = utcoffset b ->
  datetime_le a b = Ok (tuple_le (fields a) (fields b)).
Proof.
  intros H. unfold datetime_le, _cmp, tuple_le. rewrite H.
  destruct (utcoffset b) as [off|]; [rewrite Z.eqb_refl|]; reflexivity.
Qed.

Lemma datetime_fields_eq (a b : datetime) :
  utcoffset a = utcoffset b -> fields a = fields b -> a = b.
Proof.
  destruct a, b. unfold fields. simpl. intros -> [= -> -> -> -> -> -> ->].
  reflexivity.
Qed.

Lemma in_window_same_offset (start_dt end_dt t : datetime) :
  utcoffset start_dt = utcoffset t ->
  utcoffset t = utcoffset end_dt ->
  in_window start_dt end_dt t
  = Ok (tuple_le (fields start_dt) (fields t)
        && tuple_le (fields t) (fields end_dt)).
Proof.
  intros H1 H2. unfold in_window.
  rewrite (datetime_le_same_offset _ _ H1). simpl.
  destruct (tuple_le (fields start_dt) (fields t)); [|reflexivity].
  now rewrite (datetime_le_same_offset _ _ H2).
Qed.

(** The answer of the windowed route when the test is false on every
    record. *)
Lemma window_stack_none (start_time end_time : string)
    (start_dt end_dt : datetime) (w : world) :
  fromisoformat start_time = Some start_dt ->
  fromisoformat end_time = Some end_dt ->
  (forall r, In r (benchmarking_results w) ->
             in_window start_dt end_dt (timestamp r) = Ok false) ->
  build_middleware_stack []
    (GET_results_average_window start_time end_time) w
  = (Ok (mk_response 404
           (JSONDetail
              "No benchmarking results found in the specified time window.")),
     mk_world (benchmarking_results w) (StoreRead :: log w)).
Proof.
  intros Hs He Hnone. rewrite active_stack. unfold router, bind.
  rewrite (window_parsed _ _ _ _ _ Hs He). cbv zeta.
  now rewrite filter_none.
Qed.

(** X11. An inverted window matches nothing: when the bounds and the
    timestamps of the records all have the same offset, or are all naive,
    and the end is before the start, the windowed route answers 404 whatever
    the store holds, and [compute_average] is not called. *)
Theorem inverted_window_404 (start_time end_time : string)
    (start_dt end_dt : datetime) (w : world) :
  fromisoformat start_time = Some start_dt ->
  fromisoformat end_time = Some end_dt ->
  utcoffset end_dt = utcoffset start_dt ->
  (forall r, In r (benchmarking_results w) ->
             utcoffset (timestamp r) = utcoffset start_dt) ->
  datetime_le start_dt end_dt = Ok false ->
  build_middleware_stack []
    (GET_results_average_window start_time end_time) w
  = (Ok (mk_response 404
           (JSONDetail
              "No benchmarking results found in the specified time window.")),
     mk_world (benchmarking_results w) (StoreRead :: log w)).
Proof.
  intros Hs He Hoff Hstore Hinv.
  apply (window_stack_none _ _ start_dt end_dt); [assumption | assumption |].
  intros r Hr.
  rewrite in_window_same_offset by (rewrite (Hstore r Hr); congruence).
  rewrite datetime_le_same_offset in Hinv by now symmetry.
  injection Hinv as Hinv. f_equal.
  destruct (tuple_le (fields start_dt) (fields (timestamp r))) eqn:E1;
    [|reflexivity].
  destruct (tuple_le (fields (timestamp r)) (fields end_dt)) eqn:E2;
    [|reflexivity].
  now rewrite (tuple_le_trans _ _ _ E1 E2) in Hinv.
Qed.

(** X12. Widening the window never loses a record: when all values have
    the same offset, or are all naive, and [start' <= start] and
    [end <= end'], both comprehensions have a value, and every record
    selected for [start, end] is selected for [start', end']. *)
Theorem wider_window_selects_more (start_dt end_dt start_dt' end_dt' : datetime)
    (rs : list BenchmarkingResult) :
  utcoffset start_dt' = utcoffset start_dt ->
  utcoffset end_dt = utcoffset start_dt ->
  utcoffset end_dt' = utcoffset start_dt ->
  (forall r, In r rs -> utcoffset (timestamp r) = utcoffset start_dt) ->
  datetime_le start_dt' start_dt = Ok true ->
  datetime_le end_dt end_dt' = Ok true ->
  exists sel sel',
    filter_window start_dt end_dt rs = Ok sel
    /\ filter_window start_dt' end_dt' rs = Ok sel'
    /\ forall r, In r sel -> In r sel'.
Proof.
  intros Hs' He He' Hstore Hle_s Hle_e.
  rewrite datetime_le_same_offset in Hle_s by assumption.
  rewrite datetime_le_same_offset in Hle_e by congruence.
  injection Hle_s as Hle_s. injection Hle_e as Hle_e.
  assert (Hin : forall r, In r rs ->
            in_window start_dt end_dt (timestamp r)
            = Ok (tuple_le (fields start_dt) (fields (timestamp r))
                  && tuple_le (fields (timestamp r)) (fields end_dt))).
  { intros r Hr. apply in_window_same_offset; rewrite (Hstore r Hr); congruence. }
  assert (Hin' : forall r, In r rs ->
            in_window start_dt' end_dt' (timestamp r)
            = Ok (tuple_le (fields start_dt') (fields (timestamp r))
                  && tuple_le (fields (timestamp r)) (fields end_dt'))).
  { intros r Hr. apply in_window_same_offset; rewrite (Hstore r Hr); congruence. }
  eexists _, _.
  split; [apply filter_window_defined; intros r Hr; rewrite Hin by assumption;
          eexists; reflexivity|].
  split; [apply filter_window_defined; intros r Hr; rewrite Hin' by assumption;
          eexists; reflexivity|].
  intros r. rewrite !filter_In. unfold in_window_holds.
  intros [Hr Hsel]. split; [exact Hr|].
  rewrite Hin in Hsel by assumption. rewrite Hin' by assumption.
  destruct (tuple_le (fields start_dt) (fields (timestamp r))) eqn:E1;
    [|discriminate].
  destruct (tuple_le (fields (timestamp r)) (fields end_dt)) eqn:E2;
    [|discriminate].
  rewrite (tuple_le_trans _ _ _ Hle_s E1), (tuple_le_trans _ _ _ E2 Hle_e).
  reflexivity.
Qed.

(** X13. A window reduced to one instant selects the records of that
    instant and no other: with [t] as both bounds, and all values of the
    same offset or all naive, the comprehension keeps exactly the records
    whose timestamp is [t]. *)
Theorem point_window_selects_equal (t : datetime)
    (rs : list BenchmarkingResult) :
  (forall r, In r rs -> utcoffset (timestamp r) = utcoffset t) ->
  exists sel,
    filter_window t t rs = Ok sel
    /\ forall r, In r sel <-> In r rs /\ timestamp r = t.
Proof.
  intros Hstore.
  assert (Hin : forall r, In r rs ->
            in_window t t (timestamp r)
            = Ok (tuple_le (fields t) (fields (timestamp r))
                  && tuple_le (fields (timestamp r)) (fields t))).
  { intros r Hr. apply in_window_same_offset; now rewrite (Hstore r Hr). }
  eexists.
  split; [apply filter_window_defined; intros r Hr; rewrite Hin by assumption;
          eexists; reflexivity|].
  intros r. rewrite filter_In. unfold in_window_holds.
  split.
  - intros [Hr Hsel]. split; [exact Hr|].
    rewrite Hin in Hsel by assumption.
    destruct (tuple_le (fields t) (fields (timestamp r))) eqn:E1;
      [|discriminate].
    destruct (tuple_le (fields (timestamp r)) (fields t)) eqn:E2;
      [|discriminate].
    apply datetime_fields_eq; [now apply Hstore|].
    now apply tuple_le_antisym.
  - intros [Hr Ht]. split; [exact Hr|].
    rewrite Ht. unfold in_window. now rewrite !datetime_le_refl.
Qed.

(** *** Requests are answered independently *)

Lemma router_store_only (req : request) (w w' : world) :
  benchmarking_results w = benchmarking_results w' ->
  fst (router req w) = fst (router req w').
Proof.
  intros Hw.
  destruct req as [|start_time end_time|method path]; unfold router, bind, ret.
  - destruct (benchmarking_results w) as [|r rs] eqn:E.
    + rewrite !get_average_results_empty by congruence. reflexivity.
    + rewrite !get_average_results_nonempty by congruence.
      rewrite <- Hw, E. now destruct (compute_average (r :: rs)).
  - destruct (fromisoformat start_time) as [start_dt|] eqn:Hs.
    + destruct (fromisoformat end_time) as [end_dt|] eqn:He.
      * rewrite !(window_parsed _ _ _ _ _ Hs He). cbv zeta. rewrite <- Hw.
        destruct (filter_window start_dt end_dt (benchmarking_results w))
          as [[|r rs]|e]; try reflexivity.
        now destruct (compute_average (r :: rs)).
      * now rewrite !window_unparsed by (now right).
    + now rewrite !window_unparsed by (now left).
  - reflexivity.
Qed.

(** X14. In active mode, each request of a sequence is answered as it
    would be on its own: the answers of [serve] are, one by one, the answers
    the application gives to each request in the world before the
    sequence. *)
Theorem serve_answers_independently (reqs : list request) (w : world) :
  Forall2 (fun req resp => fst (build_middleware_stack [] req w) = Ok resp)
    reqs (fst (serve (build_middleware_stack []) reqs w)).
Proof.
  (* the world changes along the sequence, its store does not *)
  enough (Hgen : forall w', benchmarking_results w' = benchmarking_results w ->
            Forall2 (fun req resp =>
                       fst (build_middleware_stack [] req w) = Ok resp)
              reqs (fst (serve (build_middleware_stack []) reqs w')))
    by now apply Hgen.
  induction reqs as [|req reqs IH]; intros w' Hw'; cbn [serve].
  - constructor.
  - rewrite active_stack.
    assert (Hw1 : benchmarking_results (snd (router req w'))
                  = benchmarking_results w)
      by (rewrite router_store; exact Hw').
    specialize (IH _ Hw1).
    destruct (serve (build_middleware_stack []) reqs (snd (router req w')))
      as [resps w2].
    simpl in *. constructor; [|exact IH].
    rewrite active_stack. simpl. f_equal. f_equal.
    symmetry. now apply router_store_only.
Qed.

(** *** Stores that mix naive and aware timestamps *)

Lemma in_window_mixed (start_dt end_dt t : datetime) :
  aware start_dt <> aware t -> in_window start_dt end_dt t = Raise TypeError.
Proof.
  unfold in_window, datetime_le, _cmp, aware.
  destruct (utcoffset start_dt), (utcoffset t); simpl; congruence.
Qed.

(** On a store that holds a naive and an aware timestamp, the windowed
    route answers 400 or 500, whatever its two segments are. *)
Lemma window_mixed_store (start_time end_time : string) (w : world) :
  (exists r, In r (benchmarking_results w) /\ aware (timestamp r) = false) ->
  (exists r, In r (benchmarking_results w) /\ aware (timestamp r) = true) ->
  exists resp,
    fst (build_middleware_stack []
           (GET_results_average_window start_time end_time) w) = Ok resp
    /\ (status resp = 400 \/ status resp = 500).
Proof.
  intros (rn & Hrn & Hn) (ra & Hra & Ha).
  destruct (fromisoformat start_time) as [start_dt|] eqn:Hs.
  - destruct (fromisoformat end_time) as [end_dt|] eqn:He.
    + rewrite (stack_window _ _ _ _ _ Hs He).
      rewrite filter_window_raises.
      * eexists. split; [reflexivity | now right].
      * destruct (aware start_dt) eqn:Hsd.
        -- exists rn. split; [exact Hrn|]. apply in_window_mixed. congruence.
        -- exists ra. split; [exact Hra|]. apply in_window_mixed. congruence.
    + rewrite active_stack. unfold router, bind, ret.
      rewrite window_unparsed by (now right).
      eexists. split; [reflexivity | now left].
  - rewrite active_stack. unfold router, bind, ret.
    rewrite window_unparsed by (now left).
    eexists. split; [reflexivity | now left].
Qed.

End Program.

(** ** The properties on sample inputs *)

(** The four quotients of a list of records given in full are within the
    range of binary64. *)
Ltac fields_in_range :=
  let H := fresh in
  intros ? ? [H|[H|[H|[H|[]]]]]; injection H as <- <-; vm_compute; reflexivity.

(** Three records with token counts 10, 20 and 30 average to 20.0. *)
Lemma compute_average_sample :
  sample_store <> []
  /\ (forall k f, In (k, f) average_fields ->
        in_range (total f sample_store) (Z.of_nat (length sample_store)))
  /\ exists m v, compute_average sample_store = Ok m
                 /\ m !! "average_token_count" = Some v
                 /\ (float_value v == 20)%Q.
Proof.
  assert (Hin : forall k f, In (k, f) average_fields ->
            in_range (total f sample_store) (Z.of_nat (length sample_store)))
    by fields_in_range.
  split; [discriminate|]. split; [exact Hin|].
  destruct (compute_average_nearest_mean sample_store) as (m & Hm & _ & Hv);
    [discriminate | exact Hin |].
  destruct (Hv "average_token_count" token_count) as (v & Hlook & Hnear);
    [left; reflexivity|].
  exists m, v. split; [exact Hm|]. split; [exact Hlook|].
  assert (Hmean : (mean token_count sample_store == 20)%Q) by reflexivity.
  rewrite <- Hmean.
  apply (nearest_exact _ v (mk_float false 5629499534213120 (-48)) Hnear).
  - unfold is_binary64. cbn [mantissa exponent]. lia.
  - rewrite Hmean. vm_compute. reflexivity.
Defined.

(** C1 as stated fails. A record whose token count is [10 ^ 400] makes
    the division raise [OverflowError], so no mapping is returned; and for
    three records with token counts 1, 0 and 0 the value returned is not the
    sum divided by the number of records, a third, but the binary64 value
    next to it. *)
Lemma compute_average_not_mean :
  [huge_result] <> []
  /\ compute_average [huge_result] = Raise OverflowError
  /\ third_store <> []
  /\ exists m v,
       compute_average third_store = Ok m
       /\ m !! "average_token_count" = Some v
       /\ ~ (float_value v == mean token_count third_store)%Q.
Proof.
  split; [discriminate|]. split; [vm_compute; reflexivity|].
  split; [discriminate|].
  destruct (compute_average_in_range third_store) as (m & Hm & _ & Hv);
    [discriminate | fields_in_range |].
  destruct (Hv "average_token_count" token_count) as (v & Hlook & Hdiv);
    [left; reflexivity|].
  exists m, v. split; [exact Hm|]. split; [exact Hlook|].
  vm_compute in Hdiv. injection Hdiv as <-.
  vm_compute. discriminate.
Qed.

(** [not-a-date] as the start of the window is answered with 400. *)
Lemma window_not_a_date :
  fromisoformat_basic "not-a-date" = None
  /\ build_middleware_stack fromisoformat_basic not_found []
       (GET_results_average_window "not-a-date" "2024-01-02T00:00:00")
       (mk_world sample_store [])
     = (Ok (mk_response 400
              (JSONDetail "Invalid datetime format. Use ISO 8601 format.")),
        mk_world sample_store []).
Proof.
  split; [reflexivity|].
  apply window_unparsed_400. left. reflexivity.
Defined.

(** A window in 2025 over the three records of January 2024: 404. *)
Lemma window_2025_no_match :
  fromisoformat_basic "2025-01-01T00:00:00"
  = Some (mk_datetime 2025 1 1 0 0 0 0 None)
  /\ fromisoformat_basic "2025-12-31T00:00:00"
     = Some (mk_datetime 2025 12 31 0 0 0 0 None)
  /\ build_middleware_stack fromisoformat_basic not_found []
       (GET_results_average_window "2025-01-01T00:00:00" "2025-12-31T00:00:00")
       (mk_world sample_store [])
     = (Ok (mk_response 404
              (JSONDetail
                 "No benchmarking results found in the specified time window.")),
        mk_world sample_store [StoreRead]).
Proof.
  split; [reflexivity|]. split; [reflexivity|].
  apply (window_no_match_404 fromisoformat_basic not_found
           "2025-01-01T00:00:00" "2025-12-31T00:00:00"
           (mk_datetime 2025 1 1 0 0 0 0 None)
           (mk_datetime 2025 12 31 0 0 0 0 None)
           (mk_world sample_store [])); [reflexivity | reflexivity |].
  intros r [<-|[<-|[<-|[]]]]; reflexivity.
Defined.

(** C6 as stated fails: with naive bounds in 2025 and one record with an
    aware timestamp of January 2024, the test holds on no record, and the
    answer is the 500 of the uncaught [TypeError], not the 404. *)
Lemma window_no_match_not_404 :
  fromisoformat_basic "2025-01-01T00:00:00"
  = Some (mk_datetime 2025 1 1 0 0 0 0 None)
  /\ fromisoformat_basic "2025-12-31T00:00:00"
     = Some (mk_datetime 2025 12 31 0 0 0 0 None)
  /\ (forall r, In r [aware_result] ->
        in_window (mk_datetime 2025 1 1 0 0 0 0 None)
          (mk_datetime 2025 12 31 0 0 0 0 None) (timestamp r) <> Ok true)
  /\ build_middleware_stack fromisoformat_basic not_found []
       (GET_results_average_window "2025-01-01T00:00:00" "2025-12-31T00:00:00")
       (mk_world [aware_result] [])
     = (Ok (mk_response 500 (PlainText "Internal Server Error")),
        mk_world [aware_result] [StoreRead]).
Proof.
  split; [reflexivity|]. split; [reflexivity|]. split; [|reflexivity].
  intros r [<-|[]]. discriminate.
Qed.

(** The window from 1 to 2 January over the three records selects the
    first two, bounds included, and answers with their averages. *)
Lemma window_jan_1_2 :
  fromisoformat_basic "2024-01-01T00:00:00" = Some (jan 1 None)
  /\ fromisoformat_basic "2024-01-02T00:00:00" = Some (jan 2 None)
  /\ fst (build_middleware_stack fromisoformat_basic not_found []
            (GET_results_average_window "2024-01-01T00:00:00"
               "2024-01-02T00:00:00")
            (mk_world sample_store []))
     = Ok (average_response [sample_result 10 (jan 1 None);
                             sample_result 20 (jan 2 None)])
  /\ status (average_response [sample_result 10 (jan 1 None);
                               sample_result 20 (jan 2 None)]) = 200.
Proof.
  split; [reflexivity|]. split; [reflexivity|].
  split; [|vm_compute; reflexivity].
  refine (proj1 (window_selects_inclusive fromisoformat_basic not_found
           "2024-01-01T00:00:00" "2024-01-02T00:00:00"
           (jan 1 None) (jan 2 None) (mk_world sample_store [])
           eq_refl eq_refl _)).
  intros r [<-|[<-|[<-|[]]]]; eexists; reflexivity.
Defined.

(** C2 as stated fails: with naive bounds from 1 to 3 January, a record
    with a naive timestamp of 1 January and a record with an aware
    timestamp, the test holds on the first record only, and the answer is
    the 500 of the uncaught [TypeError], not the averages over that
    record. *)
Lemma window_mixed_store_not_aggregated :
  fromisoformat_basic "2024-01-01T00:00:00" = Some (jan 1 None)
  /\ fromisoformat_basic "2024-01-03T00:00:00" = Some (jan 3 None)
  /\ List.filter
       (fun r => in_window_holds (jan 1 None) (jan 3 None) (timestamp r))
       [sample_result 10 (jan 1 None); aware_result]
     = [sample_result 10 (jan 1 None)]
  /\ fst (build_middleware_stack fromisoformat_basic not_found []
            (GET_results_average_window "2024-01-01T00:00:00"
               "2024-01-03T00:00:00")
            (mk_world [sample_result 10 (jan 1 None); aware_result] []))
     = Ok (mk_response 500 (PlainText "Internal Server Error"))
  /\ (exists m, compute_average [sample_result 10 (jan 1 None)] = Ok m)
  /\ fst (build_middleware_stack fromisoformat_basic not_found []
            (GET_results_average_window "2024-01-01T00:00:00"
               "2024-01-03T00:00:00")
            (mk_world [sample_result 10 (jan 1 None); aware_result] []))
     <> Ok (average_response [sample_result 10 (jan 1 None)]).
Proof.
  split; [reflexivity|]. split; [reflexivity|]. split; [reflexivity|].
  split; [reflexivity|].
  destruct (compute_average_in_range [sample_result 10 (jan 1 None)])
    as (m & Hm & _); [discriminate | fields_in_range |].
  split; [now exists m|].
  unfold average_response. rewrite Hm.
  change (fst (build_middleware_stack fromisoformat_basic not_found []
            (GET_results_average_window "2024-01-01T00:00:00"
               "2024-01-03T00:00:00")
            (mk_world [sample_result 10 (jan 1 None); aware_result] [])))
    with (@Ok response (mk_response 500 (PlainText "Internal Server Error"))).
  discriminate.
Qed.

(** C5 as stated fails: a store that is not empty, with one record whose
    token count is [10 ^ 400], is not answered with the mapping of the
    Aggregator but with the 500 of the uncaught [OverflowError]. *)
Lemma average_overflow_500 :
  [huge_result] <> []
  /\ build_middleware_stack fromisoformat_basic not_found []
       GET_results_average (mk_world [huge_result] [])
     = (Ok (mk_response 500 (PlainText "Internal Server Error")),
        mk_world [huge_result] [AggregatorCall; StoreRead; StoreRead]).
Proof.
  split; [discriminate|]. vm_compute. reflexivity.
Qed.

(** The window from the least to the greatest timestamp of the three
    records answers what the unwindowed route answers. *)
Lemma window_jan_1_3_is_average :
  sample_store <> []
  /\ is_min_timestamp (jan 1 None) sample_store
  /\ is_max_timestamp (jan 3 None) sample_store
  /\ fst (build_middleware_stack fromisoformat_basic not_found []
            (GET_results_average_window "2024-01-01T00:00:00"
               "2024-01-03T00:00:00")
            (mk_world sample_store []))
     = fst (build_middleware_stack fromisoformat_basic not_found []
              GET_results_average (mk_world sample_store [])).
Proof.
  assert (Hmin : is_min_timestamp (jan 1 None) sample_store).
  { split.
    - exists (sample_result 10 (jan 1 None)). split; [now left | reflexivity].
    - intros r [<-|[<-|[<-|[]]]]; reflexivity. }
  assert (Hmax : is_max_timestamp (jan 3 None) sample_store).
  { split.
    - exists (sample_result 30 (jan 3 None)).
      split; [right; right; now left | reflexivity].
    - intros r [<-|[<-|[<-|[]]]]; reflexivity. }
  split; [discriminate|]. split; [exact Hmin|]. split; [exact Hmax|].
  refine (proj1 (window_min_max_is_average fromisoformat_basic not_found
           "2024-01-01T00:00:00" "2024-01-03T00:00:00"
           (jan 1 None) (jan 3 None) (mk_world sample_store [])
           _ eq_refl eq_refl Hmin Hmax)).
  discriminate.
Defined.

(** C7 as stated fails: on a store that is not empty, with a naive and an
    aware timestamp, the unwindowed route answers 200 with the averages,
    and the windowed route answers 400 or 500, whatever the two segments
    are. *)
Lemma window_mixed_store_never_average :
  [sample_result 10 (jan 1 None); aware_result] <> []
  /\ (exists m,
        fst (build_middleware_stack fromisoformat_basic not_found []
               GET_results_average
               (mk_world [sample_result 10 (jan 1 None); aware_result] []))
        = Ok (mk_response 200 (JSONAverages m)))
  /\ (forall start_time end_time, exists resp,
        fst (build_middleware_stack fromisoformat_basic not_found []
               (GET_results_average_window start_time end_time)
               (mk_world [sample_result 10 (jan 1 None); aware_result] []))
        = Ok resp
        /\ (status resp = 400 \/ status resp = 500)).
Proof.
  split; [discriminate|]. split.
  { destruct (compute_average_in_range
                [sample_result 10 (jan 1 None); aware_result])
      as (m & Hm & _); [discriminate | fields_in_range |].
    exists m. rewrite stack_average_nonempty by discriminate.
    unfold average_response. cbn [fst benchmarking_results].
    now rewrite Hm. }
  intros start_time end_time. apply window_mixed_store.
  - exists (sample_result 10 (jan 1 None)). split; [now left | reflexivity].
  - exists aware_result. split; [right; now left | reflexivity].
Qed.

(** A seed whose second record is rejected aborts startup, although its
    first record is a good one. *)
Lemma bad_seed_aborts :
  SUPERBENCHMARK_DEBUG (Some "true") = true
  /\ seed_is_bad fromisoformat_basic strict_init bad_seed
  /\ exists cause w',
       load_test_data fromisoformat_basic strict_init bad_seed initial_world
       = (Raise (Exception "Error loading test database: " cause), w')
       /\ main fromisoformat_basic strict_init (Some "true") bad_seed
            initial_world
          = (Raise (Exception "Error loading test database: " cause), w').
Proof.
  assert (Hbad : seed_is_bad fromisoformat_basic strict_init bad_seed).
  { exists [sample_item (PInt 10) "2024-01-01T00:00:00";
            sample_item (PStr "many") "2024-01-02T00:00:00"],
           (sample_item (PStr "many") "2024-01-02T00:00:00"), ValidationError.
    split; [reflexivity|]. split; [right; now left | reflexivity]. }
  split; [reflexivity|]. split; [exact Hbad|].
  exact (bad_seed_aborts_startup fromisoformat_basic strict_init
           (Some "true") bad_seed eq_refl Hbad).
Defined.

(** A seed that is an object without the key loads nothing, and the
    average of nothing is a 404. *)
Lemma seed_without_key :
  SUPERBENCHMARK_DEBUG (Some "TRUE") = true
  /\ assoc "benchmarking_results" [("results", PList [])] = None
  /\ exists w,
       main fromisoformat_basic strict_init (Some "TRUE")
         (Parsed (PDict [("results", PList [])])) initial_world = (Ok [], w)
       /\ benchmarking_results w = []
       /\ fst (build_middleware_stack fromisoformat_basic not_found []
                 GET_results_average w)
          = Ok (mk_response 404 (JSONDetail "No benchmarking results found.")).
Proof.
  split; [reflexivity|]. split; [reflexivity|].
  exact (missing_key_loads_nothing fromisoformat_basic strict_init not_found
           (Some "TRUE") [("results", PList [])] eq_refl eq_refl).
Defined.

(** ** The further properties on sample inputs *)

(** Two records in either order have the same averages. *)
Lemma compute_average_swapped :
  Permutation [sample_result 10 (jan 1 None); sample_result 20 (jan 2 None)]
    [sample_result 20 (jan 2 None); sample_result 10 (jan 1 None)]
  /\ compute_average
       [sample_result 10 (jan 1 None); sample_result 20 (jan 2 None)]
     = compute_average
         [sample_result 20 (jan 2 None); sample_result 10 (jan 1 None)].
Proof.
  split; [apply perm_swap|].
  apply compute_average_Permutation, perm_swap.
Defined.

(** The four averages of the three records are between 10 and 500. *)
Lemma averages_sample_in_range :
  sample_store <> []
  /\ (forall k f r, In (k, f) average_fields -> In r sample_store ->
        10 <= f r <= 500)
  /\ exists m v,
       compute_average sample_store = Ok m
       /\ m !! "average_token_count" = Some v
       /\ (10 <= float_value v)%Q /\ (float_value v <= 500)%Q.
Proof.
  assert (Hb : forall k f r, In (k, f) average_fields -> In r sample_store ->
                 10 <= f r <= 500).
  { intros k f r [H|[H|[H|[H|[]]]]] [<-|[<-|[<-|[]]]];
      injection H as <- <-; simpl; lia. }
  split; [discriminate|]. split; [exact Hb|].
  destruct (average_within_range sample_store 10 500) as (m & Hm & Hv);
    [discriminate | simpl; lia | simpl; lia | exact Hb |].
  destruct (Hv "average_token_count" token_count) as (v & Hlook & Hlo & Hhi);
    [left; reflexivity|].
  exists m, v. split; [exact Hm|]. split; [exact Hlook|].
  split; [exact Hlo | exact Hhi].
Defined.

(** Naive bounds over a store with an aware record: the comparison raises
    on that record, and the answer is a 500. *)
Lemma window_mixed_store_500 :
  fromisoformat_basic "2024-01-01T00:00:00" = Some (jan 1 None)
  /\ fromisoformat_basic "2024-01-03T00:00:00" = Some (jan 3 None)
  /\ exists resp,
       fst (build_middleware_stack fromisoformat_basic not_found []
              (GET_results_average_window "2024-01-01T00:00:00"
                 "2024-01-03T00:00:00")
              (mk_world [sample_result 10 (jan 1 None); aware_result] []))
       = Ok resp
       /\ status resp = 500.
Proof.
  split; [reflexivity|]. split; [reflexivity|].
  destruct (window_500_iff_raises fromisoformat_basic not_found
              "2024-01-01T00:00:00" "2024-01-03T00:00:00"
              (jan 1 None) (jan 3 None)
              (mk_world [sample_result 10 (jan 1 None); aware_result] [])
              eq_refl eq_refl) as (resp & Hresp & _ & H500).
  exists resp. split; [exact Hresp|].
  apply H500. left. exists aware_result.
  split; [right; now left | reflexivity].
Defined.

(** The two records of the good seed are appended in the order of the
    file. *)
Lemma good_seed_loads_in_order :
  items_of good_seed_data
  = Ok [sample_item (PInt 10) "2024-01-01T00:00:00";
        sample_item (PInt 20) "2024-01-02T00:00:00"]
  /\ exists lg,
       load_test_data fromisoformat_basic strict_init (Parsed good_seed_data)
         initial_world
       = (Ok tt,
          mk_world [sample_result 10 (jan 1 None); sample_result 20 (jan 2 None)]
            lg).
Proof.
  split; [reflexivity|].
  apply (load_appends_in_file_order fromisoformat_basic strict_init
           good_seed_data
           [sample_item (PInt 10) "2024-01-01T00:00:00";
            sample_item (PInt 20) "2024-01-02T00:00:00"]
           [sample_result 10 (jan 1 None); sample_result 20 (jan 2 None)]
           initial_world); [reflexivity|].
  repeat constructor.
Defined.

(** The bad seed stops at its second record, with [ValidationError] as the
    cause, and the first record stays in the store. *)
Lemma bad_seed_keeps_first_record :
  item_record fromisoformat_basic strict_init
    (sample_item (PStr "many") "2024-01-02T00:00:00")
  = Raise ValidationError
  /\ exists lg,
       load_test_data fromisoformat_basic strict_init bad_seed initial_world
       = (Raise (Exception "Error loading test database: " ValidationError),
          mk_world [sample_result 10 (jan 1 None)] lg).
Proof.
  split; [reflexivity|].
  apply (load_stops_at_first_rejected fromisoformat_basic strict_init
           (PDict [("benchmarking_results",
                    PList [sample_item (PInt 10) "2024-01-01T00:00:00";
                           sample_item (PStr "many") "2024-01-02T00:00:00"])])
           [sample_item (PInt 10) "2024-01-01T00:00:00"] []
           (sample_item (PStr "many") "2024-01-02T00:00:00")
           [sample_result 10 (jan 1 None)] ValidationError initial_world);
    [reflexivity | repeat constructor | reflexivity].
Defined.

(** Startup on the good seed, then the average of its two records. *)
Lemma good_seed_then_average :
  SUPERBENCHMARK_DEBUG (Some "True") = true
  /\ exists w,
       main fromisoformat_basic strict_init (Some "True")
         (Parsed good_seed_data) initial_world = (Ok [], w)
       /\ benchmarking_results w
          = [sample_result 10 (jan 1 None); sample_result 20 (jan 2 None)]
       /\ fst (build_middleware_stack fromisoformat_basic not_found []
                 GET_results_average w)
          = Ok (average_response [sample_result 10 (jan 1 None);
                                  sample_result 20 (jan 2 None)]).
Proof.
  split; [reflexivity|].
  apply (startup_then_average fromisoformat_basic strict_init not_found
           (Some "True") good_seed_data
           [sample_item (PInt 10) "2024-01-01T00:00:00";
            sample_item (PInt 20) "2024-01-02T00:00:00"]
           [sample_result 10 (jan 1 None); sample_result 20 (jan 2 None)]);
    [reflexivity | reflexivity | repeat constructor | discriminate].
Defined.

(** A seed that is a JSON array is refused. *)
Lemma seed_array_refused :
  (forall d, PList [] <> PDict d)
  /\ load_test_data fromisoformat_basic strict_init (Parsed (PList []))
       initial_world
     = (Raise (Exception "Error loading test database: " AttributeError),
        mk_world [] [SeedLoaderCall]).
Proof.
  split; [discriminate|].
  apply (load_top_level_not_object fromisoformat_basic strict_init
           (PList []) initial_world).
  discriminate.
Defined.

(** The window from 3 January back to 1 January matches none of the three
    records. *)
Lemma window_jan_3_1_inverted :
  datetime_le (jan 3 None) (jan 1 None) = Ok false
  /\ build_middleware_stack fromisoformat_basic not_found []
       (GET_results_average_window "2024-01-03T00:00:00" "2024-01-01T00:00:00")
       (mk_world sample_store [])
     = (Ok (mk_response 404
              (JSONDetail
                 "No benchmarking results found in the specified time window.")),
        mk_world sample_store [StoreRead]).
Proof.
  split; [reflexivity|].
  apply (inverted_window_404 fromisoformat_basic not_found
           "2024-01-03T00:00:00" "2024-01-01T00:00:00"
           (jan 3 None) (jan 1 None) (mk_world sample_store []));
    try reflexivity.
  intros r [<-|[<-|[<-|[]]]]; reflexivity.
Defined.

(** The record of 2 January, selected for the window of that day, is
    selected for the window from 1 to 3 January. *)
Lemma window_jan_2_within_jan_1_3 :
  exists sel sel',
    filter_window (jan 2 None) (jan 2 None) sample_store = Ok sel
    /\ filter_window (jan 1 None) (jan 3 None) sample_store = Ok sel'
    /\ forall r, In r sel -> In r sel'.
Proof.
  apply (wider_window_selects_more (jan 2 None) (jan 2 None)
           (jan 1 None) (jan 3 None) sample_store); try reflexivity.
  intros r [<-|[<-|[<-|[]]]]; reflexivity.
Defined.

(** The window reduced to 2 January selects the records of that instant. *)
Lemma window_jan_2_point :
  exists sel,
    filter_window (jan 2 None) (jan 2 None) sample_store = Ok sel
    /\ forall r, In r sel <-> In r sample_store /\ timestamp r = jan 2 None.
Proof.
  apply (point_window_selects_equal (jan 2 None) sample_store).
  intros r [<-|[<-|[<-|[]]]]; reflexivity.
Defined.
